(** * grblHAL MODBUS I/O plugin (modbus_io.c): shallow embedding and properties

    The plugin adds two user M-codes to grblHAL: M101 (one Modbus
    transaction) and M102 (poll a discrete input until it shows a target
    value or a timeout expires).  This file embeds [modbus_io.c] function by
    function and proves properties of the validator, the frame builders, the
    executor, the response callbacks and the poll loop.

    Layout: binary32 floats, integer conversions, the data model, the
    plugin's functions (inside [Section Plugin], whose variables are the
    parts of grblHAL that the plugin only calls), then the theorems, then
    the model run on sample programs.

    The build embedded is the one without MBIO_DEBUG.  The option report
    [mbio_report_options] and the registration [mbio_init] are left out. *)

From Stdlib Require Import ZArith List Bool String Lia.
From Stdlib Require Import Floats.SpecFloat.
Import ListNotations.
Open Scope Z_scope.

(** ** C [float]: IEEE 754 binary32 *)

Module F32.

Definition prec : Z := 24.
Definition emax : Z := 128.

(** C conversion of an integer (constant or enum) to [float]. *)
Definition of_Z (z : Z) : spec_float := binary_normalize prec emax z 0 false.

(** C [a < b], [a > b], [a != b], [a * b], [a / b] on floats. *)
Definition lt (a b : spec_float) : bool := SFltb a b.
Definition gt (a b : spec_float) : bool := SFltb b a.
Definition ne (a b : spec_float) : bool := negb (SFeqb a b).
Definition mul (a b : spec_float) : spec_float := SFmul prec emax a b.
Definition div (a b : spec_float) : spec_float := SFdiv prec emax a b.

(** [isnanf] of the C library. *)
Definition isnanf (x : spec_float) : bool :=
  match x with S754_nan => true | _ => false end.

(** Integer part, rounded towards zero, of a finite float; [None] for NaN
    and the infinities. *)
Definition trunc (x : spec_float) : option Z :=
  match x with
  | S754_zero _ => Some 0
  | S754_finite s m e =>
      let a := match e with
               | Zneg k => Z.shiftr (Zpos m) (Zpos k)
               | _ => Z.shiftl (Zpos m) e
               end in
      Some (if s then - a else a)
  | _ => None
  end.

(** [ceilf] of the C library.  It returns an integral value, the smallest
    one not below its argument; that value is kept here as an integer.
    NaN and the infinities, which [ceilf] returns as they are, give
    [None]. *)
Definition ceilf (x : spec_float) : option Z :=
  match x with
  | S754_zero _ => Some 0
  | S754_finite s m e =>
      match e with
      | Zneg k =>
          let p := Z.shiftl 1 (Zpos k) in
          Some (if s then - (Zpos m / p) else (Zpos m + p - 1) / p)
      | _ => Some (if s then - Z.shiftl (Zpos m) e else Z.shiftl (Zpos m) e)
      end
  | _ => None
  end.

(** Conversion of an integral float value to an unsigned integer type of
    [w] bits.  C defines it only when the value is representable, that
    is within [0, 2^w): there the result is the value itself.  Elsewhere
    the target decides; here the value wraps modulo [2^w], and NaN and
    the infinities give 0.  What is proved of the poll loop for every
    timeout holds for any step count below [2^w]; its step count is
    given only where the conversion is defined. *)
Definition unsigned_of_integral (w : Z) (v : option Z) : Z :=
  match v with
  | Some z => z mod 2 ^ w
  | None => 0
  end.

(** Conversion of any float to an unsigned integer type of [w] bits: the
    fraction is dropped first. *)
Definition to_unsigned (w : Z) (x : spec_float) : Z :=
  unsigned_of_integral w (trunc x).

(** The value lies between two integer bounds (so it is not a NaN). *)
Definition within (lo hi : Z) (x : spec_float) : Prop :=
  SFleb (of_Z lo) x = true /\ SFleb x (of_Z hi) = true.

End F32.

Arguments F32.of_Z : simpl never.
Arguments F32.lt : simpl never.
Arguments F32.gt : simpl never.
Arguments F32.ne : simpl never.
Arguments F32.mul : simpl never.
Arguments F32.div : simpl never.

Definition float : Set := spec_float.

(** The sign bit of a float is clear, or the float is a NaN. *)
Definition not_negative (x : float) : Prop :=
  match x with
  | S754_nan => True
  | S754_zero s | S754_infinity s | S754_finite s _ _ => s = false
  end.

(** ** Integer types *)

Definition u8 (z : Z) : Z := z mod 256.
Definition u16 (z : Z) : Z := z mod 65536.

(** A signed 32-bit value from any integer (two's complement). *)
Definition s32 (z : Z) : Z := (z + 2 ^ 31) mod 2 ^ 32 - 2 ^ 31.

(** [(char)f]: [char] is unsigned on the ARM targets of grblHAL; a byte
    stored from it into the ADU is the same for a signed [char]. *)
Definition char_of_float (f : float) : Z := F32.to_unsigned 8 f.
Definition uint16_of_float (f : float) : Z := F32.to_unsigned 16 f.
Definition int32_of_float (f : float) : Z :=
  match F32.trunc f with Some z => s32 z | None => 0 end.

(** The [n] integers from [z] upwards. *)
Fixpoint zrange (n : nat) (z : Z) : list Z :=
  match n with
  | O => []
  | S n' => z :: zrange n' (Z.succ z)
  end.

(** ** Declarations of grblHAL used by the plugin *)

(** grbl/modbus.h: function codes. *)
Definition ModBus_ReadCoils : Z := 1.
Definition ModBus_ReadDiscreteInputs : Z := 2.
Definition ModBus_ReadHoldingRegisters : Z := 3.
Definition ModBus_ReadInputRegisters : Z := 4.
Definition ModBus_WriteCoil : Z := 5.
Definition ModBus_WriteRegister : Z := 6.

(** Modelled from the spec: the macros MODBUS_SET_MSB16 and MODBUS_SET_LSB16
    of grbl/modbus.h, the high and the low byte of a 16-bit value sent
    big-endian. *)
Definition MODBUS_SET_MSB16 (v : Z) : Z := Z.shiftr v 8.
Definition MODBUS_SET_LSB16 (v : Z) : Z := Z.land v 0xFF.

(** Modelled from the spec: modbus_read_u16 of grbl/modbus.h, the 16-bit
    big-endian value held by two consecutive bytes. *)
Definition modbus_read_u16 (p : list Z) : Z :=
  Z.lor (Z.shiftl (nth 0 p 0) 8) (nth 1 p 0).

(** grbl/errors.h: the status codes the plugin names; any other one is
    kept by number. *)
Inductive status_code_t : Set :=
| Status_OK
| Status_BadNumberFormat
| Status_GcodeValueWordMissing
| Status_GcodeValueOutOfRange
| Status_ExpressionInvalidResult
| Status_GCodeTimeout
| Status_Unhandled
| Status_Other (code : Z).

(** grbl/gcode.h: user M-codes; M101 is UserMCode_Generic1 and M102 is
    UserMCode_Generic2. *)
Inductive user_mcode_t : Set :=
| UserMCode_Ignore
| UserMCode_Generic1
| UserMCode_Generic2
| UserMCode_Other (code : Z).

(** The parameter words of a block the plugin reads: presence flags and
    values. *)
Record parameter_words_t : Set := {
  words_d : bool; words_e : bool; words_p : bool; words_q : bool;
  words_r : bool }.

Record gc_values_t : Set := {
  values_d : float; values_e : float; values_p : float; values_q : float;
  values_r : float }.

Record parser_block_t : Set := {
  user_mcode : user_mcode_t;
  words : parameter_words_t;
  values : gc_values_t }.

Definition set_values_q (gc_block : parser_block_t) (v : float) : parser_block_t :=
  {| user_mcode := user_mcode gc_block;
     words := words gc_block;
     values := {| values_d := values_d (values gc_block);
                  values_e := values_e (values gc_block);
                  values_p := values_p (values gc_block);
                  values_q := v;
                  values_r := values_r (values gc_block) |} |}.

Definition set_words (gc_block : parser_block_t) (ws : parameter_words_t) : parser_block_t :=
  {| user_mcode := user_mcode gc_block; words := ws; values := values gc_block |}.

Definition is_BadNumberFormat (s : status_code_t) : bool :=
  match s with Status_BadNumberFormat => true | _ => false end.

(** [gc_block->words.d = ... = Off]: the words that M101 and M102 claim. *)
Definition claim_M101 (ws : parameter_words_t) : parameter_words_t :=
  {| words_d := false; words_e := false; words_p := false; words_q := false;
     words_r := words_r ws |}.
Definition claim_M102 (ws : parameter_words_t) : parameter_words_t :=
  {| words_d := false; words_e := words_e ws; words_p := false; words_q := false;
     words_r := false |}.

(** grbl/modbus.h: a request or a response.  [adu] lists the bytes from
    index 0; an index beyond the list reads 0, as the elements that a
    designated initializer leaves out. *)
Record modbus_message_t : Set := {
  context : Z;
  crc_check : bool;
  adu : list Z;
  tx_length : Z;
  rx_length : Z }.

Definition adu_at (msg : modbus_message_t) (i : nat) : Z := nth i (adu msg) 0.

(** The fields of [sys] the plugin touches. *)
Record sys_t : Set := {
  var5399 : Z;
  cold_start : bool;
  abort : bool }.

(** Calls into grblHAL are recorded, in order, as events. *)
Inductive foreground_task : Set :=
| Task_mbio_raise_alarm
| Task_report_warning (msg : string).

Inductive message_type_t : Set := Message_Plain | Message_Warning.

Inductive event : Set :=
| Ev_system_raise_alarm (code : status_code_t)
| Ev_enqueue_foreground_task (task : foreground_task)
| Ev_report_message (msg : string) (type : message_type_t)
| Ev_modbus_send (msg : modbus_message_t) (block : bool)
| Ev_execute_realtime
| Ev_delay_ms (ms : Z).

Record world : Set := {
  sys : sys_t;
  trace : list event }.

Definition log (e : event) (w : world) : world :=
  {| sys := sys w; trace := trace w ++ [e] |}.

Definition set_var5399 (v : Z) (w : world) : world :=
  {| sys := {| var5399 := v; cold_start := cold_start (sys w); abort := abort (sys w) |};
     trace := trace w |}.

Definition set_abort (a : bool) (w : world) : world :=
  {| sys := {| var5399 := var5399 (sys w); cold_start := cold_start (sys w); abort := a |};
     trace := trace w |}.

(** What the transport does with a request before [modbus_send] returns. *)
Inductive modbus_completion : Set :=
| Rx_packet (msg : modbus_message_t)
| Rx_exception (code : Z) (context : Z)
| Rx_nothing.

(** [user_mcode_ptrs_t]: the handlers of another plugin, each may be NULL. *)
Record user_mcode_ptrs_t : Type := {
  check : option (user_mcode_t -> user_mcode_t);
  validate : option (parser_block_t -> status_code_t * parser_block_t);
  execute : option (Z -> parser_block_t -> world -> world) }.

(** The requests and the sleeps found in a trace. *)
Definition sent_frames (tr : list event) : list modbus_message_t :=
  flat_map (fun e => match e with Ev_modbus_send m _ => [m] | _ => [] end) tr.

Definition sleeps (tr : list event) : list Z :=
  flat_map (fun e => match e with Ev_delay_ms ms => [ms] | _ => [] end) tr.

(** An event that raises the alarm, at once or as a queued task. *)
Definition is_alarm_event (e : event) : bool :=
  match e with
  | Ev_system_raise_alarm _ => true
  | Ev_enqueue_foreground_task Task_mbio_raise_alarm => true
  | _ => false
  end.

(** What a callback may add to the trace: reports and alarms only. *)
Definition callback_event (e : event) : bool :=
  match e with
  | Ev_system_raise_alarm _ | Ev_enqueue_foreground_task _ | Ev_report_message _ _ => true
  | _ => false
  end.

(** The error indicator of a response: the high bit of the first byte. *)
Definition error_bit (msg : modbus_message_t) : bool :=
  negb (Z.land (adu_at msg 0) 0x80 =? 0).

(** ** Concrete surroundings, used to run the model *)

(** Modelled from the spec: isintf of grbl/nuts_bolts.h, true when the
    value is a whole number (a NaN or an infinity is not). *)
Definition isintf_whole (x : float) : bool :=
  match x with
  | S754_zero _ => true
  | S754_finite _ m (Zneg k) => Z.land (Zpos m) (Z.ones (Zpos k)) =? 0
  | S754_finite _ _ _ => true
  | _ => false
  end.

(** A block from the words written in the program; a word that is not
    written has its flag off and a NaN value. *)
Definition word_flag (v : option float) : bool :=
  match v with Some _ => true | None => false end.
Definition word_value (v : option float) : float :=
  match v with Some x => x | None => S754_nan end.

Definition block (mcode : user_mcode_t) (d e p q r : option float) : parser_block_t :=
  {| user_mcode := mcode;
     words := {| words_d := word_flag d; words_e := word_flag e; words_p := word_flag p;
                 words_q := word_flag q; words_r := word_flag r |};
     values := {| values_d := word_value d; values_e := word_value e;
                  values_p := word_value p; values_q := word_value q;
                  values_r := word_value r |} |}.

Definition whole (z : Z) : option float := Some (F32.of_Z z).

(** 0.5 and the float nearest to 0.1 *)
Definition f_half : float := F32.div (F32.of_Z 1) (F32.of_Z 2).
Definition f_tenth : float := F32.div (F32.of_Z 1) (F32.of_Z 10).


Definition no_chain : user_mcode_ptrs_t :=
  {| check := None; validate := None; execute := None |}.

Definition sys0 : sys_t := {| var5399 := 0; cold_start := false; abort := false |}.
Definition world0 : world := {| sys := sys0; trace := [] |}.
Definition world_cold : world :=
  {| sys := {| var5399 := 0; cold_start := true; abort := false |}; trace := [] |}.
Definition world_aborting : world :=
  {| sys := {| var5399 := 0; cold_start := false; abort := true |}; trace := [] |}.

(** A device that answers every request with the discrete input [bit]. *)
Definition device_input (bit : Z) (tr : list event) (req : modbus_message_t) : modbus_completion :=
  Rx_packet {| context := context req; crc_check := true;
               adu := [nth 0 (adu req) 0; nth 1 (adu req) 0; 1; bit];
               tx_length := tx_length req; rx_length := rx_length req |}.

(** A device that never answers. *)
Definition device_silent (tr : list event) (req : modbus_message_t) : modbus_completion :=
  Rx_nothing.

Definition never_abort (tr : list event) : bool := false.

(** A response whose first byte has the high bit set. *)
Definition error_response : modbus_message_t :=
  {| context := 0; crc_check := true; adu := [0x81; 0x02; 0x00; 0x00];
     tx_length := 8; rx_length := 6 |}.

(** Sample blocks: the program text is given before each. *)

(** M101 D1 E2 P1 Q70000 *)
Definition M101_read_input_Q70000 : parser_block_t :=
  block UserMCode_Generic1 (whole 1) (whole 2) (whole 1) (whole 70000) None.

(** M101 D1 E2 P1 Q7 *)
Definition M101_read_input_Q7 : parser_block_t :=
  block UserMCode_Generic1 (whole 1) (whole 2) (whole 1) (whole 7) None.

(** M101 D1 E1 P10 Q5 *)
Definition M101_read_coils_Q5 : parser_block_t :=
  block UserMCode_Generic1 (whole 1) (whole 1) (whole 10) (whole 5) None.

(** M101 D1 E3 P10 *)
Definition M101_read_holding : parser_block_t :=
  block UserMCode_Generic1 (whole 1) (whole 3) (whole 10) None None.

(** M101 D1 E5 P10 Q7 *)
Definition M101_write_coil_Q7 : parser_block_t :=
  block UserMCode_Generic1 (whole 1) (whole 5) (whole 10) (whole 7) None.

(** M101 D1 E5 Q7: the register address is missing *)
Definition M101_no_P : parser_block_t :=
  block UserMCode_Generic1 (whole 1) (whole 5) None (whole 7) None.

(** M102 D1 P1 Q1 R0.5 *)
Definition M102_half_second : parser_block_t :=
  block UserMCode_Generic2 (whole 1) None (whole 1) (whole 1) (Some f_half).

(** M102 D1 P1 Q1 R3601 *)
Definition M102_R3601 : parser_block_t :=
  block UserMCode_Generic2 (whole 1) None (whole 1) (whole 1) (whole 3601).

(** A block once M101 has claimed its words. *)
Definition claimed_M101 (gc_block : parser_block_t) : parser_block_t :=
  set_words gc_block (claim_M101 (words gc_block)).

(** ** Auxiliary notions for the further properties *)

(** A value that the range checks of the validator let through: it lies
    within the bounds, or it is a NaN (no comparison with a NaN holds). *)
Definition passes_range (lo hi : Z) (x : float) : Prop :=
  F32.isnanf x = true \/ F32.within lo hi x.

Definition is_byte (z : Z) : Prop := 0 <= z < 256.

(** The six function codes, as the floats the validator compares with. *)
Definition function_codes : list float :=
  map F32.of_Z [ModBus_ReadCoils; ModBus_ReadDiscreteInputs;
                ModBus_ReadHoldingRegisters; ModBus_ReadInputRegisters;
                ModBus_WriteCoil; ModBus_WriteRegister].

(** M101 D1 E6 P10 Q4660 *)
Definition M101_write_register : parser_block_t :=
  block UserMCode_Generic1 (whole 1) (whole 6) (whole 10) (whole 4660) None.

(** M101 D1 E4 P10 Q7 *)
Definition M101_read_input_register_Q7 : parser_block_t :=
  block UserMCode_Generic1 (whole 1) (whole 4) (whole 10) (whole 7) None.

(** M102 D1 P3 Q1 R0.1 *)
Definition M102_tenth : parser_block_t :=
  block UserMCode_Generic2 (whole 1) None (whole 3) (whole 1) (Some f_tenth).

(** M3 S1000, say: a code that is not the plugin's. *)
Definition other_block : parser_block_t :=
  block (UserMCode_Other 3) None None None None None.

(** A device that answers a register read with the 16-bit value [v]. *)
Definition device_register (v : Z) (tr : list event) (req : modbus_message_t) : modbus_completion :=
  Rx_packet {| context := context req; crc_check := true;
               adu := [nth 0 (adu req) 0; nth 1 (adu req) 0; 2;
                       u8 (MODBUS_SET_MSB16 (u16 v)); u8 (MODBUS_SET_LSB16 (u16 v))];
               tx_length := tx_length req; rx_length := rx_length req |}.

(** A device that answers every request with an exception. *)
Definition device_failing (tr : list event) (req : modbus_message_t) : modbus_completion :=
  Rx_exception 2 (context req).

(** Another plugin's handlers, which accept everything. *)
Definition permissive_chain : user_mcode_ptrs_t :=
  {| check := Some (fun m => m);
     validate := Some (fun b => (Status_OK, b));
     execute := Some (fun _ _ w => log Ev_execute_realtime w) |}.

(** M101 D1 E9 P10 Q7: no such function *)
Definition M101_function_9 : parser_block_t :=
  block UserMCode_Generic1 (whole 1) (whole 9) (whole 10) (whole 7) None.

(** Responses of device 1 with the tag 7: holding register with value
    0x1234, discrete input on; and a response of device 200. *)
Definition register_response : modbus_message_t :=
  {| context := 7; crc_check := true; adu := [1; 3; 2; 0x12; 0x34];
     tx_length := 8; rx_length := 7 |}.
Definition input_on_response : modbus_message_t :=
  {| context := 7; crc_check := true; adu := [1; 2; 1; 1];
     tx_length := 8; rx_length := 6 |}.
Definition device_200_response : modbus_message_t :=
  {| context := 7; crc_check := true; adu := [200; 3; 2; 0x12; 0x34];
     tx_length := 8; rx_length := 7 |}.

(** A transport that answers every request with the packet [msg]. *)
Definition answering (msg : modbus_message_t) (tr : list event) (req : modbus_message_t)
  : modbus_completion := Rx_packet msg.

Definition world_with (v : Z) : world :=
  {| sys := {| var5399 := v; cold_start := false; abort := false |}; trace := [] |}.

(** ** The plugin *)

Section Plugin.

(** isintf of grbl/nuts_bolts.h: whether a float holds a whole number. *)
Variable isintf : float -> bool.

(** modbus_io.h: the context tag of the plugin's requests and the length
    of a poll step in milliseconds, an integer constant; and the width of
    [uint_fast16_t] on the target. *)
Variable MBIO_Command : Z.
Variable MBIO_WAIT_STEP : Z.
Variable uint_fast16_bits : Z.

(** [static user_mcode_ptrs_t user_mcode]: the handlers to fall back on
    (modbus_io.c never stores into it, so there each of them is NULL; the
    model leaves them open). *)
Variable chained : user_mcode_ptrs_t.

(** The transport behind [modbus_send], and whether a call of
    [protocol_execute_realtime] finds an abort request; both may depend
    on all that happened before.  Of [sys], the realtime handler changes
    [abort] only, and only sets it. *)
Variable modbus_transport : list event -> modbus_message_t -> modbus_completion.
Variable realtime_abort : list event -> bool.

Definition system_raise_alarm (code : status_code_t) (w : world) : world :=
  log (Ev_system_raise_alarm code) w.

Definition protocol_enqueue_foreground_task (task : foreground_task) (w : world) : world :=
  log (Ev_enqueue_foreground_task task) w.

Definition report_message (msg : string) (type : message_type_t) (w : world) : world :=
  log (Ev_report_message msg type) w.

Definition protocol_execute_realtime (w : world) : world :=
  log Ev_execute_realtime (set_abort (abort (sys w) || realtime_abort (trace w)) w).

Definition hal_delay_ms (ms : Z) (w : world) : world := log (Ev_delay_ms ms) w.

Definition mbio_failed (w : world) : bool * world :=
  let ok := true in
  if cold_start (sys w) then
    (ok, protocol_enqueue_foreground_task Task_mbio_raise_alarm w)
  else
    (ok, protocol_enqueue_foreground_task (Task_report_warning "What's this?")
           (system_raise_alarm Status_ExpressionInvalidResult w)).

Definition mbio_rx_exception (code : Z) (context : Z) (w : world) : world :=
  snd (mbio_failed w).

Definition mbio_rx_packet (msg : modbus_message_t) (w : world) : world :=
  if Z.land (adu_at msg 0) 0x80 =? 0 then
    if context msg =? MBIO_Command then
      if adu_at msg 1 =? ModBus_ReadDiscreteInputs then
        set_var5399 (Z.land (adu_at msg 3) 0x01) w
      else if adu_at msg 1 =? ModBus_ReadCoils then
        set_var5399 (adu_at msg 3) w
      else if (adu_at msg 1 =? ModBus_ReadInputRegisters)
              || (adu_at msg 1 =? ModBus_ReadHoldingRegisters) then
        set_var5399 (modbus_read_u16 (skipn 3 (adu msg))) w
      else w
    else w
  else
    report_message "MODBUS ERROR" Message_Warning w.

(** [modbus_send(&_cmd, &callbacks, true)]: the request goes out and the
    transport calls back [mbio_rx_packet] or [mbio_rx_exception]. *)
Definition mbio_modbus_send_command (_cmd : modbus_message_t) (block : bool) (w : world) : world :=
  let w1 := log (Ev_modbus_send _cmd true) w in
  match modbus_transport (trace w) _cmd with
  | Rx_packet msg => mbio_rx_packet msg w1
  | Rx_exception code ctx => mbio_rx_exception code ctx w1
  | Rx_nothing => w1
  end.

(** The message [_cmd] that each builder initialises.  Parameters are
    [char] and [uint16_t] in C: they are reduced to their width here. *)
Definition ReadCoils_frame (device_address register_address value : Z) : modbus_message_t :=
  {| context := MBIO_Command;
     crc_check := true;
     adu := [ u8 device_address;
              ModBus_ReadCoils;
              u8 (MODBUS_SET_MSB16 (u16 register_address));
              u8 (MODBUS_SET_LSB16 (u16 register_address));
              u8 (MODBUS_SET_MSB16 (u16 value));
              u8 (MODBUS_SET_LSB16 (u16 value)) ];
     tx_length := 8;
     rx_length := 6 |}.

Definition WriteCoil_frame (device_address register_address value : Z) : modbus_message_t :=
  {| context := MBIO_Command;
     crc_check := true;
     adu := [ u8 device_address;
              ModBus_WriteCoil;
              u8 (MODBUS_SET_MSB16 (u16 register_address));
              u8 (MODBUS_SET_LSB16 (u16 register_address));
              u8 (MODBUS_SET_MSB16 (u16 value));
              u8 (MODBUS_SET_LSB16 (u16 value)) ];
     tx_length := 8;
     rx_length := 8 |}.

Definition ReadDiscreteInputs_frame (device_address register_address value : Z) : modbus_message_t :=
  {| context := MBIO_Command;
     crc_check := true;
     adu := [ u8 device_address;
              ModBus_ReadDiscreteInputs;
              u8 (MODBUS_SET_MSB16 (u16 register_address));
              u8 (MODBUS_SET_LSB16 (u16 register_address));
              u8 (MODBUS_SET_MSB16 (u16 value));
              u8 (MODBUS_SET_LSB16 (u16 value)) ];
     tx_length := 8;
     rx_length := 6 |}.

Definition ReadHoldingRegisters_frame (device_address register_address : Z) : modbus_message_t :=
  {| context := MBIO_Command;
     crc_check := true;
     adu := [ u8 device_address;
              ModBus_ReadHoldingRegisters;
              u8 (MODBUS_SET_MSB16 (u16 register_address));
              u8 (MODBUS_SET_LSB16 (u16 register_address));
              0;
              1 ];
     tx_length := 8;
     rx_length := 7 |}.

Definition ReadInputRegisters_frame (device_address register_address value : Z) : modbus_message_t :=
  {| context := MBIO_Command;
     crc_check := true;
     adu := [ u8 device_address;
              ModBus_ReadInputRegisters;
              u8 (MODBUS_SET_MSB16 (u16 register_address));
              u8 (MODBUS_SET_LSB16 (u16 register_address));
              u8 (MODBUS_SET_MSB16 (u16 value));
              u8 (MODBUS_SET_LSB16 (u16 value)) ];
     tx_length := 8;
     rx_length := 7 |}.

Definition WriteRegister_frame (device_address register_address value : Z) : modbus_message_t :=
  {| context := MBIO_Command;
     crc_check := true;
     adu := [ u8 device_address;
              ModBus_WriteRegister;
              u8 (MODBUS_SET_MSB16 (u16 register_address));
              u8 (MODBUS_SET_LSB16 (u16 register_address));
              u8 (MODBUS_SET_MSB16 (u16 value));
              u8 (MODBUS_SET_LSB16 (u16 value)) ];
     tx_length := 8;
     rx_length := 8 |}.

(** Each builder then hands its message to [mbio_modbus_send_command]. *)
Definition mbio_ModBus_ReadCoils (device_address register_address value : Z) :=
  mbio_modbus_send_command (ReadCoils_frame device_address register_address value) true.
Definition mbio_ModBus_WriteCoil (device_address register_address value : Z) :=
  mbio_modbus_send_command (WriteCoil_frame device_address register_address value) true.
Definition mbio_ModBus_ReadDiscreteInputs (device_address register_address value : Z) :=
  mbio_modbus_send_command (ReadDiscreteInputs_frame device_address register_address value) true.
Definition mbio_ModBus_ReadHoldingRegisters (device_address register_address : Z) :=
  mbio_modbus_send_command (ReadHoldingRegisters_frame device_address register_address) true.
Definition mbio_ModBus_ReadInputRegisters (device_address register_address value : Z) :=
  mbio_modbus_send_command (ReadInputRegisters_frame device_address register_address value) true.
Definition mbio_ModBus_WriteRegister (device_address register_address value : Z) :=
  mbio_modbus_send_command (WriteRegister_frame device_address register_address value) true.


(** The [do ... while (--delay && !sys.abort)] loop of
    [mbio_Wait_ReadDiscreteInputs]; [fuel] bounds the number of
    iterations the model follows.  The result is [ret], the final
    [delay] and the world. *)
Fixpoint wait_loop (fuel : nat) (device_address register_address value delay : Z)
         (w : world) : option (Z * Z * world) :=
  match fuel with
  | O => None
  | S fuel' =>
      let w := mbio_ModBus_ReadDiscreteInputs device_address register_address 1 w in
      if var5399 (sys w) =? value then Some (value, delay, w)
      else if negb (delay =? 0) then
        let w := hal_delay_ms 50 (protocol_execute_realtime w) in
        let delay := (delay - 1) mod 2 ^ uint_fast16_bits in
        if negb (delay =? 0) && negb (abort (sys w)) then
          wait_loop fuel' device_address register_address value delay w
        else Some (-1, delay, w)
      else Some (-1, delay, w)
  end.

(** [(uint_fast16_t)ceilf((1000.0f / MBIO_WAIT_STEP) * timeout) + 1] *)
Definition wait_steps (timeout : float) : Z :=
  (F32.unsigned_of_integral uint_fast16_bits
     (F32.ceilf (F32.mul (F32.div (F32.of_Z 1000) (F32.of_Z MBIO_WAIT_STEP)) timeout))
   + 1) mod 2 ^ uint_fast16_bits.

Definition mbio_Wait_ReadDiscreteInputs (fuel : nat) (device_address register_address value : Z)
           (timeout : float) (w : world) : option (Z * world) :=
  let delay := wait_steps timeout in
  match wait_loop fuel device_address register_address value delay w with
  | Some (ret, _, w) => Some (ret, w)
  | None => None
  end.

Definition mbio_check (mcode : user_mcode_t) : user_mcode_t :=
  match mcode with
  | UserMCode_Generic1 | UserMCode_Generic2 => mcode
  | _ => match check chained with
         | Some f => f mcode
         | None => UserMCode_Ignore
         end
  end.

Definition mbio_validate (gc_block : parser_block_t) : status_code_t * parser_block_t :=
  let state := Status_GcodeValueWordMissing in
  let v := values gc_block in
  let '(state, gc_block) :=
    match user_mcode gc_block with
    | UserMCode_Generic1 =>
        let state := if negb (words_d (words gc_block)) || negb (isintf (values_d v))
                     then Status_BadNumberFormat else state in
        let state := if negb (words_e (words gc_block)) || negb (isintf (values_e v))
                     then Status_BadNumberFormat else state in
        let state := if negb (words_p (words gc_block)) || negb (isintf (values_p v))
                     then Status_BadNumberFormat else state in
        let state := if words_q (words gc_block) && negb (isintf (values_q v))
                     then Status_BadNumberFormat else state in
        if negb (is_BadNumberFormat state) then
          let '(state, gc_block) :=
            if F32.lt (values_d v) (F32.of_Z 0) || F32.gt (values_d v) (F32.of_Z 247)
               || (F32.ne (values_e v) (F32.of_Z ModBus_ReadDiscreteInputs)
                   && F32.ne (values_e v) (F32.of_Z ModBus_ReadInputRegisters)
                   && F32.ne (values_e v) (F32.of_Z ModBus_WriteCoil)
                   && F32.ne (values_e v) (F32.of_Z ModBus_WriteRegister)
                   && F32.ne (values_e v) (F32.of_Z ModBus_ReadHoldingRegisters)
                   && F32.ne (values_e v) (F32.of_Z ModBus_ReadCoils))
               || F32.lt (values_p v) (F32.of_Z 1) || F32.gt (values_p v) (F32.of_Z 9999)
               || F32.lt (values_q v) (F32.of_Z 0) || F32.gt (values_q v) (F32.of_Z 65535)
            then (Status_GcodeValueOutOfRange, gc_block)
            else
              (Status_OK,
               if (char_of_float (values_e v) =? ModBus_ReadDiscreteInputs)
                  || (char_of_float (values_e v) =? ModBus_ReadInputRegisters)
               then set_values_q gc_block (F32.of_Z 1)
               else gc_block) in
          (state, set_words gc_block (claim_M101 (words gc_block)))
        else (state, gc_block)
    | UserMCode_Generic2 =>
        let state := if negb (words_d (words gc_block)) || negb (isintf (values_d v))
                     then Status_BadNumberFormat else state in
        let state := if negb (words_p (words gc_block)) || negb (isintf (values_p v))
                     then Status_BadNumberFormat else state in
        let state := if negb (words_q (words gc_block)) || negb (isintf (values_q v))
                     then Status_BadNumberFormat else state in
        let state := if negb (words_r (words gc_block)) || F32.isnanf (values_r v)
                     then Status_BadNumberFormat else state in
        if negb (is_BadNumberFormat state) then
          let state :=
            if F32.lt (values_d v) (F32.of_Z 0) || F32.gt (values_d v) (F32.of_Z 247)
               || F32.lt (values_p v) (F32.of_Z 1) || F32.gt (values_p v) (F32.of_Z 9999)
               || F32.lt (values_q v) (F32.of_Z 0) || F32.gt (values_q v) (F32.of_Z 1)
               || F32.lt (values_r v) (F32.of_Z 0) || F32.gt (values_r v) (F32.of_Z 3600)
            then Status_GcodeValueOutOfRange
            else Status_OK in
          (state, set_words gc_block (claim_M102 (words gc_block)))
        else (state, gc_block)
    | _ => (Status_Unhandled, gc_block)
    end in
  match state, validate chained with
  | Status_Unhandled, Some f => f gc_block
  | _, _ => (state, gc_block)
  end.

Definition mbio_execute (fuel : nat) (state : Z) (gc_block : parser_block_t) (w : world)
  : option world :=
  let device_address := char_of_float (values_d (values gc_block)) in
  let register_address := u16 (uint16_of_float (values_p (values gc_block)) - 1) in
  match user_mcode gc_block with
  | UserMCode_Generic1 =>
      let value := uint16_of_float (values_q (values gc_block)) in
      let e := char_of_float (values_e (values gc_block)) in
      let value := if e =? 5 then (if 0 <? value then 0xff00 else 0) else value in
      Some
        (if e =? ModBus_ReadCoils then
           mbio_ModBus_ReadCoils device_address register_address value w
         else if e =? ModBus_ReadDiscreteInputs then
           mbio_ModBus_ReadDiscreteInputs device_address register_address 1 w
         else if e =? ModBus_ReadInputRegisters then
           mbio_ModBus_ReadInputRegisters device_address register_address 1 w
         else if e =? ModBus_ReadHoldingRegisters then
           mbio_ModBus_ReadHoldingRegisters device_address register_address w
         else if e =? ModBus_WriteCoil then
           mbio_ModBus_WriteCoil device_address register_address value w
         else if e =? ModBus_WriteRegister then
           mbio_ModBus_WriteRegister device_address register_address value w
         else w)
  | UserMCode_Generic2 =>
      match mbio_Wait_ReadDiscreteInputs fuel device_address register_address
              (int32_of_float (values_q (values gc_block)))
              (values_r (values gc_block)) w with
      | Some (ret, w) =>
          Some (if ret <? 0 then system_raise_alarm Status_GCodeTimeout w else w)
      | None => None
      end
  | _ =>
      match execute chained with
      | Some f => Some (f state gc_block w)
      | None => Some w
      end
  end.


(** The two stages of [mbio_validate], as booleans: a word is missing or
    not whole, and a value is out of range. *)
Definition format_error_M101 (gc_block : parser_block_t) : bool :=
  let w := words gc_block in
  let v := values gc_block in
  negb (words_d w) || negb (isintf (values_d v))
  || (negb (words_e w) || negb (isintf (values_e v)))
  || (negb (words_p w) || negb (isintf (values_p v)))
  || (words_q w && negb (isintf (values_q v))).

Definition range_error_M101 (gc_block : parser_block_t) : bool :=
  let v := values gc_block in
  F32.lt (values_d v) (F32.of_Z 0) || F32.gt (values_d v) (F32.of_Z 247)
  || (F32.ne (values_e v) (F32.of_Z ModBus_ReadDiscreteInputs)
      && F32.ne (values_e v) (F32.of_Z ModBus_ReadInputRegisters)
      && F32.ne (values_e v) (F32.of_Z ModBus_WriteCoil)
      && F32.ne (values_e v) (F32.of_Z ModBus_WriteRegister)
      && F32.ne (values_e v) (F32.of_Z ModBus_ReadHoldingRegisters)
      && F32.ne (values_e v) (F32.of_Z ModBus_ReadCoils))
  || F32.lt (values_p v) (F32.of_Z 1) || F32.gt (values_p v) (F32.of_Z 9999)
  || F32.lt (values_q v) (F32.of_Z 0) || F32.gt (values_q v) (F32.of_Z 65535).

Definition format_error_M102 (gc_block : parser_block_t) : bool :=
  let w := words gc_block in
  let v := values gc_block in
  negb (words_d w) || negb (isintf (values_d v))
  || (negb (words_p w) || negb (isintf (values_p v)))
  || (negb (words_q w) || negb (isintf (values_q v)))
  || (negb (words_r w) || F32.isnanf (values_r v)).

Definition range_error_M102 (gc_block : parser_block_t) : bool :=
  let v := values gc_block in
  F32.lt (values_d v) (F32.of_Z 0) || F32.gt (values_d v) (F32.of_Z 247)
  || F32.lt (values_p v) (F32.of_Z 1) || F32.gt (values_p v) (F32.of_Z 9999)
  || F32.lt (values_q v) (F32.of_Z 0) || F32.gt (values_q v) (F32.of_Z 1)
  || F32.lt (values_r v) (F32.of_Z 0) || F32.gt (values_r v) (F32.of_Z 3600).

(** The block after M101 passed its range checks. *)
Definition forced_M101 (gc_block : parser_block_t) : parser_block_t :=
  if (char_of_float (values_e (values gc_block)) =? ModBus_ReadDiscreteInputs)
     || (char_of_float (values_e (values gc_block)) =? ModBus_ReadInputRegisters)
  then set_values_q gc_block (F32.of_Z 1)
  else gc_block.

(** The request that [mbio_execute] sends for M101, if any: the inner
    [switch] of its first case, without the sending. *)
Definition M101_request (gc_block : parser_block_t) : option modbus_message_t :=
  let device_address := char_of_float (values_d (values gc_block)) in
  let register_address := u16 (uint16_of_float (values_p (values gc_block)) - 1) in
  let value := uint16_of_float (values_q (values gc_block)) in
  let e := char_of_float (values_e (values gc_block)) in
  let value := if e =? 5 then (if 0 <? value then 0xff00 else 0) else value in
  if e =? ModBus_ReadCoils then
    Some (ReadCoils_frame device_address register_address value)
  else if e =? ModBus_ReadDiscreteInputs then
    Some (ReadDiscreteInputs_frame device_address register_address 1)
  else if e =? ModBus_ReadInputRegisters then
    Some (ReadInputRegisters_frame device_address register_address 1)
  else if e =? ModBus_ReadHoldingRegisters then
    Some (ReadHoldingRegisters_frame device_address register_address)
  else if e =? ModBus_WriteCoil then
    Some (WriteCoil_frame device_address register_address value)
  else if e =? ModBus_WriteRegister then
    Some (WriteRegister_frame device_address register_address value)
  else None.

(** ** Floats: order *)

Lemma SFcompare_antisym (x y : float) :
  SFcompare y x = option_map CompOpp (SFcompare x y).
Proof using Type.
  destruct x as [sx|sx| |sx mx ex], y as [sy|sy| |sy my ey]; simpl;
    try reflexivity;
    try (destruct sx; reflexivity);
    try (destruct sy; reflexivity);
    try (destruct sx, sy; reflexivity).
  destruct sx, sy; simpl; try reflexivity;
    rewrite (Z.compare_antisym ex ey);
    destruct (ex ?= ey) eqn:E; simpl; try reflexivity;
    change (Pos.compare_cont Eq my mx) with (Pos.compare my mx);
    change (Pos.compare_cont Eq mx my) with (Pos.compare mx my);
    rewrite (Pos.compare_antisym mx my);
    destruct (Pos.compare mx my); reflexivity.
Qed.

Lemma not_lt_iff_le (x c : float) :
  F32.isnanf x = false -> F32.isnanf c = false ->
  (F32.lt x c = false <-> SFleb c x = true).
Proof using Type.
  intros Hx Hc. unfold F32.lt, SFltb, SFleb.
  rewrite (SFcompare_antisym x c).
  destruct (SFcompare x c) as [[ | | ]|] eqn:E; simpl; try (split; congruence).
  destruct x, c; simpl in *; discriminate.
Qed.

Lemma not_gt_iff_le (x c : float) :
  F32.isnanf x = false -> F32.isnanf c = false ->
  (F32.gt x c = false <-> SFleb x c = true).
Proof using Type.
  intros Hx Hc. unfold F32.gt. apply (not_lt_iff_le c x Hc Hx).
Qed.

Lemma within_not_nan (lo hi : Z) (x : float) :
  F32.within lo hi x -> F32.isnanf x = false.
Proof using Type.
  intros [H _]. destruct x; try reflexivity.
  unfold SFleb in H. destruct (F32.of_Z lo); discriminate.
Qed.

(** A non-NaN value passes a range check of the validator exactly when
    it lies within the bounds. *)
Lemma range_check_within (lo hi : Z) (x : float) :
  F32.isnanf x = false -> F32.isnanf (F32.of_Z lo) = false ->
  F32.isnanf (F32.of_Z hi) = false ->
  (F32.lt x (F32.of_Z lo) || F32.gt x (F32.of_Z hi) = false <-> F32.within lo hi x).
Proof using Type.
  intros Hx Hlo Hhi. unfold F32.within.
  rewrite orb_false_iff, (not_lt_iff_le x _ Hx Hlo), (not_gt_iff_le x _ Hx Hhi).
  reflexivity.
Qed.

Lemma range_check_nan (lo hi : float) :
  F32.lt S754_nan lo || F32.gt S754_nan hi = false.
Proof using Type. destruct lo, hi; reflexivity. Qed.

Lemma range_check_value (lo hi : Z) (x : float) :
  F32.isnanf (F32.of_Z lo) = false -> F32.isnanf (F32.of_Z hi) = false ->
  (F32.lt x (F32.of_Z lo) || F32.gt x (F32.of_Z hi) = false <->
   F32.isnanf x = true \/ F32.within lo hi x).
Proof using Type.
  intros Hlo Hhi. destruct (F32.isnanf x) eqn:N.
  - destruct x; try discriminate. rewrite range_check_nan.
    split; intros _; [now left | reflexivity].
  - rewrite (range_check_within lo hi x N Hlo Hhi).
    split; [intros H; now right|]. intros [H|H]; [discriminate|exact H].
Qed.

(** ** Callbacks and the transaction *)

Lemma mbio_failed_trace (w : world) :
  sys (snd (mbio_failed w)) = sys w /\
  trace (snd (mbio_failed w)) =
    trace w ++
    (if cold_start (sys w)
     then [Ev_enqueue_foreground_task Task_mbio_raise_alarm]
     else [Ev_system_raise_alarm Status_ExpressionInvalidResult;
           Ev_enqueue_foreground_task (Task_report_warning "What's this?")]).
Proof.
  unfold mbio_failed. destruct (cold_start (sys w)); simpl; split; try reflexivity.
  now rewrite <- app_assoc.
Qed.

Lemma mbio_rx_packet_trace (msg : modbus_message_t) (w : world) :
  exists evs, trace (mbio_rx_packet msg w) = trace w ++ evs /\
              forallb callback_event evs = true.
Proof.
  unfold mbio_rx_packet.
  destruct (Z.land (adu_at msg 0) 0x80 =? 0).
  - exists []. split; [|reflexivity]. rewrite app_nil_r.
    repeat match goal with |- context [if ?c then _ else _] => destruct c end;
      reflexivity.
  - eexists. split; reflexivity.
Qed.

Lemma mbio_rx_packet_flags (msg : modbus_message_t) (w : world) :
  cold_start (sys (mbio_rx_packet msg w)) = cold_start (sys w) /\
  abort (sys (mbio_rx_packet msg w)) = abort (sys w).
Proof.
  unfold mbio_rx_packet.
  repeat match goal with |- context [if ?c then _ else _] => destruct c end;
    split; reflexivity.
Qed.

Lemma send_command_trace (cmd : modbus_message_t) (block : bool) (w : world) :
  exists evs,
    trace (mbio_modbus_send_command cmd block w) =
      trace w ++ Ev_modbus_send cmd true :: evs /\
    forallb callback_event evs = true.
Proof.
  unfold mbio_modbus_send_command.
  destruct (modbus_transport (trace w) cmd) as [msg|code ctx|].
  - destruct (mbio_rx_packet_trace msg (log (Ev_modbus_send cmd true) w)) as (evs & E & H).
    exists evs. split; [|exact H]. rewrite E. simpl. now rewrite <- app_assoc.
  - unfold mbio_rx_exception.
    destruct (mbio_failed_trace (log (Ev_modbus_send cmd true) w)) as (_ & E).
    eexists. split.
    + rewrite E. simpl. rewrite <- app_assoc. reflexivity.
    + destruct (cold_start (sys w)); reflexivity.
  - exists []. split; reflexivity.
Qed.

Lemma send_command_abort (cmd : modbus_message_t) (block : bool) (w : world) :
  abort (sys (mbio_modbus_send_command cmd block w)) = abort (sys w).
Proof.
  unfold mbio_modbus_send_command.
  destruct (modbus_transport (trace w) cmd) as [msg|code ctx|]; try reflexivity.
  - now rewrite (proj2 (mbio_rx_packet_flags msg _)).
  - unfold mbio_rx_exception. now rewrite (proj1 (mbio_failed_trace _)).
Qed.

Lemma sent_frames_app (l l' : list event) :
  sent_frames (l ++ l') = sent_frames l ++ sent_frames l'.
Proof. apply flat_map_app. Qed.

Lemma sleeps_app (l l' : list event) : sleeps (l ++ l') = sleeps l ++ sleeps l'.
Proof. apply flat_map_app. Qed.

Lemma callback_events_quiet (evs : list event) :
  forallb callback_event evs = true -> sent_frames evs = [] /\ sleeps evs = [].
Proof.
  induction evs as [|e evs IH]; simpl; [now split|].
  intros H. apply andb_true_iff in H. destruct H as [He H].
  destruct (IH H) as [IH1 IH2].
  destruct e; simpl in *; try discriminate; now split.
Qed.

(** A transaction sends exactly its own request and does not sleep. *)
Lemma send_command_frames (cmd : modbus_message_t) (block : bool) (w : world) :
  sent_frames (trace (mbio_modbus_send_command cmd block w)) =
    sent_frames (trace w) ++ [cmd] /\
  sleeps (trace (mbio_modbus_send_command cmd block w)) = sleeps (trace w).
Proof.
  destruct (send_command_trace cmd block w) as (evs & E & H).
  destruct (callback_events_quiet evs H) as [F S].
  rewrite E, sent_frames_app, sleeps_app. simpl. rewrite F, S.
  now rewrite app_nil_r.
Qed.

(** C1 (as amended).  A response with the error indicator set leaves
    [sys] (hence the result register [var5399]) as it is, and the
    response handler [mbio_rx_packet] only reports the warning message
    MODBUS ERROR: it raises no alarm.  The alarm path belongs to the
    exception callback [mbio_rx_exception]: during cold start the alarm
    is queued as a foreground task, otherwise it is raised at once and a
    warning is queued. *)
Theorem rx_error_response (msg : modbus_message_t) (w : world) :
  error_bit msg = true ->
  sys (mbio_rx_packet msg w) = sys w /\
  trace (mbio_rx_packet msg w) =
    trace w ++ [Ev_report_message "MODBUS ERROR" Message_Warning] /\
  (forall code ctx w',
      sys (mbio_rx_exception code ctx w') = sys w' /\
      trace (mbio_rx_exception code ctx w') =
        trace w' ++
        (if cold_start (sys w')
         then [Ev_enqueue_foreground_task Task_mbio_raise_alarm]
         else [Ev_system_raise_alarm Status_ExpressionInvalidResult;
               Ev_enqueue_foreground_task (Task_report_warning "What's this?")])).
Proof.
  unfold error_bit, mbio_rx_packet. intros H.
  destruct (Z.land (adu_at msg 0) 0x80 =? 0); [discriminate|].
  repeat split; try reflexivity; apply mbio_failed_trace.
Qed.

(** C9.  The request built for read-holding-registers has the count
    bytes 0x00 0x01 and an expected response length of 7, whatever the
    device and register addresses; and M101 with function 3 sends that
    request whatever value Q the block holds. *)
Theorem read_holding_registers_fixed_count :
  (forall device_address register_address,
      adu_at (ReadHoldingRegisters_frame device_address register_address) 4 = 0x00 /\
      adu_at (ReadHoldingRegisters_frame device_address register_address) 5 = 0x01 /\
      rx_length (ReadHoldingRegisters_frame device_address register_address) = 7) /\
  (forall fuel state gc_block q w,
      user_mcode gc_block = UserMCode_Generic1 ->
      values_e (values gc_block) = F32.of_Z ModBus_ReadHoldingRegisters ->
      exists w',
        mbio_execute fuel state (set_values_q gc_block q) w = Some w' /\
        sent_frames (trace w') =
          sent_frames (trace w) ++
          [ReadHoldingRegisters_frame
             (char_of_float (values_d (values gc_block)))
             (u16 (uint16_of_float (values_p (values gc_block)) - 1))]).
Proof.
  split; [intros; repeat split|].
  intros fuel state gc_block q w Hm He.
  unfold mbio_execute. simpl. rewrite Hm, He.
  eexists. split; [reflexivity|].
  apply send_command_frames.
Qed.

(** C10.  Each of the six requests carries the context tag MBIO_Command,
    asks for the CRC check and has a transmit length of 8.  The response
    handler changes [var5399] only for a message with that tag and a
    clear error indicator: a message with another tag, and the
    acknowledgement of a write, leave [sys] as it is. *)
Theorem frames_tagged_and_result_guarded :
  (forall device_address register_address value f,
      In f [ReadCoils_frame device_address register_address value;
            WriteCoil_frame device_address register_address value;
            ReadDiscreteInputs_frame device_address register_address value;
            ReadHoldingRegisters_frame device_address register_address;
            ReadInputRegisters_frame device_address register_address value;
            WriteRegister_frame device_address register_address value] ->
      context f = MBIO_Command /\ crc_check f = true /\ tx_length f = 8) /\
  (forall msg w,
      var5399 (sys (mbio_rx_packet msg w)) <> var5399 (sys w) ->
      context msg = MBIO_Command /\ error_bit msg = false) /\
  (forall msg w,
      context msg <> MBIO_Command -> sys (mbio_rx_packet msg w) = sys w) /\
  (forall msg w,
      error_bit msg = true -> sys (mbio_rx_packet msg w) = sys w) /\
  (forall msg w,
      adu_at msg 1 = ModBus_WriteCoil \/ adu_at msg 1 = ModBus_WriteRegister ->
      sys (mbio_rx_packet msg w) = sys w).
Proof using Type.
  split; [|split; [|split; [|split]]].
  - intros d r v f Hf. simpl in Hf.
    repeat (destruct Hf as [<-|Hf]; [repeat split|]). destruct Hf.
  - intros msg w. unfold mbio_rx_packet, error_bit.
    destruct (Z.land (adu_at msg 0) 0x80 =? 0); [|simpl; congruence].
    destruct (context msg =? MBIO_Command) eqn:E; [|simpl; congruence].
    intros _. apply Z.eqb_eq in E. now split.
  - intros msg w H. unfold mbio_rx_packet.
    apply Z.eqb_neq in H. rewrite H.
    destruct (Z.land (adu_at msg 0) 0x80 =? 0); reflexivity.
  - intros msg w. unfold error_bit, mbio_rx_packet.
    destruct (Z.land (adu_at msg 0) 0x80 =? 0); [discriminate|reflexivity].
  - intros msg w H. unfold mbio_rx_packet.
    destruct (Z.land (adu_at msg 0) 0x80 =? 0); [|reflexivity].
    destruct (context msg =? MBIO_Command); [|reflexivity].
    destruct H as [-> | ->]; reflexivity.
Qed.

(** ** The validator *)

Lemma six_codes_pass (e : float) :
  In e (map F32.of_Z [ModBus_ReadCoils; ModBus_ReadDiscreteInputs;
                      ModBus_ReadHoldingRegisters; ModBus_ReadInputRegisters;
                      ModBus_WriteCoil; ModBus_WriteRegister]) ->
  F32.ne e (F32.of_Z ModBus_ReadDiscreteInputs)
  && F32.ne e (F32.of_Z ModBus_ReadInputRegisters)
  && F32.ne e (F32.of_Z ModBus_WriteCoil)
  && F32.ne e (F32.of_Z ModBus_WriteRegister)
  && F32.ne e (F32.of_Z ModBus_ReadHoldingRegisters)
  && F32.ne e (F32.of_Z ModBus_ReadCoils) = false.
Proof using Type.
  simpl. intros H.
  repeat (destruct H as [<-|H]; [reflexivity|]). destruct H.
Qed.

(** C2 (as amended).  M101 with all required words present and whole, a
    device address within [0,247] and one of the six function codes is
    valid exactly when the register address lies within [1,9999] and the
    value field is not outside [0,65535]: the range of the value is
    checked for every function code, read-discrete-inputs and
    read-input-registers included (the value is forced to 1 only after
    that check).  A NaN value field, which only an absent Q can leave,
    passes the check. *)
Theorem validate_M101_iff (gc_block : parser_block_t) :
  user_mcode gc_block = UserMCode_Generic1 ->
  words_d (words gc_block) = true -> isintf (values_d (values gc_block)) = true ->
  words_e (words gc_block) = true -> isintf (values_e (values gc_block)) = true ->
  words_p (words gc_block) = true -> isintf (values_p (values gc_block)) = true ->
  (words_q (words gc_block) = true -> isintf (values_q (values gc_block)) = true) ->
  F32.within 0 247 (values_d (values gc_block)) ->
  In (values_e (values gc_block))
     (map F32.of_Z [ModBus_ReadCoils; ModBus_ReadDiscreteInputs;
                    ModBus_ReadHoldingRegisters; ModBus_ReadInputRegisters;
                    ModBus_WriteCoil; ModBus_WriteRegister]) ->
  F32.isnanf (values_p (values gc_block)) = false ->
  (fst (mbio_validate gc_block) = Status_OK <->
   F32.within 1 9999 (values_p (values gc_block)) /\
   (F32.isnanf (values_q (values gc_block)) = true \/
    F32.within 0 65535 (values_q (values gc_block)))).
Proof.
  intros Hm Wd Id We Ie Wp Ip Hq Hd He Np.
  unfold mbio_validate. rewrite Hm, Wd, Id, We, Ie, Wp, Ip. simpl.
  assert (Q : words_q (words gc_block) && negb (isintf (values_q (values gc_block))) = false).
  { destruct (words_q (words gc_block)); [rewrite Hq|]; reflexivity. }
  rewrite Q. simpl.
  apply (range_check_within 0 247) in Hd;
    [|apply (within_not_nan 0 247); exact Hd|reflexivity|reflexivity].
  rewrite Hd, (six_codes_pass _ He). simpl.
  rewrite <- (range_check_within 1 9999 _ Np eq_refl eq_refl).
  rewrite <- (range_check_value 0 65535 _ eq_refl eq_refl).
  destruct (F32.lt (values_p (values gc_block)) (F32.of_Z 1)
            || F32.gt (values_p (values gc_block)) (F32.of_Z 9999)) eqn:P.
  - simpl. split; [discriminate|]. intros [? _]; discriminate.
  - simpl.
    destruct (F32.lt (values_q (values gc_block)) (F32.of_Z 0)
              || F32.gt (values_q (values gc_block)) (F32.of_Z 65535)) eqn:V.
    + simpl. split; [discriminate|]. intros [_ ?]; discriminate.
    + simpl. destruct (validate chained); split; auto.
Qed.

(** C3 (as amended).  M102 whose other parameters are valid is accepted
    exactly when the timeout R lies within [0,3600] seconds: a NaN is a
    format error, and a timeout below 0 or above the upper bound 3600 is
    out of range. *)
Theorem validate_M102_timeout (gc_block : parser_block_t) :
  user_mcode gc_block = UserMCode_Generic2 ->
  words_d (words gc_block) = true -> isintf (values_d (values gc_block)) = true ->
  words_p (words gc_block) = true -> isintf (values_p (values gc_block)) = true ->
  words_q (words gc_block) = true -> isintf (values_q (values gc_block)) = true ->
  words_r (words gc_block) = true ->
  F32.within 0 247 (values_d (values gc_block)) ->
  F32.within 1 9999 (values_p (values gc_block)) ->
  F32.within 0 1 (values_q (values gc_block)) ->
  (fst (mbio_validate gc_block) = Status_OK <->
   F32.within 0 3600 (values_r (values gc_block))).
Proof.
  intros Hm Wd Id Wp Ip Wq Iq Wr Hd Hp Hq.
  unfold mbio_validate. rewrite Hm, Wd, Id, Wp, Ip, Wq, Iq, Wr. simpl.
  destruct (F32.isnanf (values_r (values gc_block))) eqn:N.
  - simpl. split; [discriminate|].
    intros H. apply within_not_nan in H. congruence.
  - simpl.
    apply (range_check_within 0 247) in Hd;
      [|apply (within_not_nan 0 247); exact Hd|reflexivity|reflexivity].
    apply (range_check_within 1 9999) in Hp;
      [|apply (within_not_nan 1 9999); exact Hp|reflexivity|reflexivity].
    apply (range_check_within 0 1) in Hq;
      [|apply (within_not_nan 0 1); exact Hq|reflexivity|reflexivity].
    apply orb_false_iff in Hp. destruct Hp as [Hp1 Hp2].
    apply orb_false_iff in Hq. destruct Hq as [Hq1 Hq2].
    rewrite Hd, Hp1, Hp2, Hq1, Hq2. simpl.
    rewrite <- (range_check_within 0 3600 _ N eq_refl eq_refl).
    destruct (F32.lt (values_r (values gc_block)) (F32.of_Z 0)
              || F32.gt (values_r (values gc_block)) (F32.of_Z 3600)) eqn:R.
    + simpl. split; discriminate.
    + simpl. split; reflexivity.
Qed.

(** C7 (as amended).  M101 with D, E or P missing or not whole, or with
    a Q that is present and not whole, and M102 with D, P or Q missing or
    not whole, or with R missing or NaN, gets the number-format status,
    and the block is left as it was: no range check is made.  Without
    such an error the result is that of the range checks, valid or out
    of range.  A timeout R that is not whole is not a format error. *)
Theorem format_errors_precede_range_checks (gc_block : parser_block_t) :
  let w := words gc_block in
  let v := values gc_block in
  let bad (flag : bool) (x : float) := flag = false \/ isintf x = false in
  (user_mcode gc_block = UserMCode_Generic1 ->
   let format_error :=
     bad (words_d w) (values_d v) \/ bad (words_e w) (values_e v) \/
     bad (words_p w) (values_p v) \/
     (words_q w = true /\ isintf (values_q v) = false) in
   (format_error -> mbio_validate gc_block = (Status_BadNumberFormat, gc_block)) /\
   (~ format_error ->
    fst (mbio_validate gc_block) = Status_OK \/
    fst (mbio_validate gc_block) = Status_GcodeValueOutOfRange)) /\
  (user_mcode gc_block = UserMCode_Generic2 ->
   let format_error :=
     bad (words_d w) (values_d v) \/ bad (words_p w) (values_p v) \/
     bad (words_q w) (values_q v) \/
     words_r w = false \/ F32.isnanf (values_r v) = true in
   (format_error -> mbio_validate gc_block = (Status_BadNumberFormat, gc_block)) /\
   (~ format_error ->
    fst (mbio_validate gc_block) = Status_OK \/
    fst (mbio_validate gc_block) = Status_GcodeValueOutOfRange)).
Proof.
  cbv zeta. split; intros Hm; unfold mbio_validate; rewrite Hm.
  - destruct (words_d (words gc_block)), (isintf (values_d (values gc_block))),
      (words_e (words gc_block)), (isintf (values_e (values gc_block))),
      (words_p (words gc_block)), (isintf (values_p (values gc_block))),
      (words_q (words gc_block)), (isintf (values_q (values gc_block)));
      cbn [negb orb andb is_BadNumberFormat fst];
      (split; [intros F; (reflexivity || (exfalso; intuition congruence))
              | intros H; try (exfalso; apply H; intuition congruence)]);
      try match goal with
          | |- context [if ?c then (Status_GcodeValueOutOfRange, _) else _] =>
              destruct c; cbn; intuition
          end.
  - destruct (words_d (words gc_block)), (isintf (values_d (values gc_block))),
      (words_p (words gc_block)), (isintf (values_p (values gc_block))),
      (words_q (words gc_block)), (isintf (values_q (values gc_block))),
      (words_r (words gc_block)), (F32.isnanf (values_r (values gc_block)));
      cbn [negb orb andb is_BadNumberFormat fst];
      (split; [intros F; (reflexivity || (exfalso; intuition congruence))
              | intros H; try (exfalso; apply H; intuition congruence)]);
      try match goal with
          | |- context [if ?c then Status_GcodeValueOutOfRange else _] =>
              destruct c; cbn; intuition
          end.
Qed.

(** ** The executor *)

(** The block that a valid M101 leaves: only the claimed words are
    cleared and, for functions 2 and 4, the value is forced to 1. *)
Lemma validate_M101_block (gc_block gc_block' : parser_block_t) :
  user_mcode gc_block = UserMCode_Generic1 ->
  mbio_validate gc_block = (Status_OK, gc_block') ->
  gc_block' =
    set_words
      (if (char_of_float (values_e (values gc_block)) =? ModBus_ReadDiscreteInputs)
          || (char_of_float (values_e (values gc_block)) =? ModBus_ReadInputRegisters)
       then set_values_q gc_block (F32.of_Z 1)
       else gc_block)
      (claim_M101 (words gc_block)).
Proof using Type.
  intros Hm. unfold mbio_validate. rewrite Hm.
  match goal with
  | |- context [if negb (is_BadNumberFormat ?s) then _ else _] =>
      destruct (negb (is_BadNumberFormat s)) eqn:B
  end.
  - match goal with
    | |- context [if ?c then (Status_GcodeValueOutOfRange, _) else _] => destruct c
    end; cbn; intros H; inversion H as [H1]. clear H H1.
    destruct ((char_of_float (values_e (values gc_block)) =? ModBus_ReadDiscreteInputs)
              || (char_of_float (values_e (values gc_block)) =? ModBus_ReadInputRegisters));
      reflexivity.
  - match goal with
    | B : negb (is_BadNumberFormat ?s) = false |- _ =>
        destruct s; try discriminate B
    end.
    cbn. intros H; inversion H.
Qed.

Lemma char_of_ReadCoils : char_of_float (F32.of_Z ModBus_ReadCoils) = 1.
Proof using Type. reflexivity. Qed.

Lemma char_of_WriteCoil : char_of_float (F32.of_Z ModBus_WriteCoil) = 5.
Proof using Type. reflexivity. Qed.

Lemma frame_value_bytes (v : Z) :
  u8 (MODBUS_SET_MSB16 (u16 v)) * 256 + u8 (MODBUS_SET_LSB16 (u16 v)) = u16 v.
Proof using Type.
  unfold u8, u16, MODBUS_SET_MSB16, MODBUS_SET_LSB16.
  change 0xFF with (Z.ones 8).
  rewrite Z.land_ones, Z.shiftr_div_pow2 by lia.
  change (2 ^ 8) with 256.
  assert (H : 0 <= v mod 65536 < 65536) by (apply Z.mod_pos_bound; lia).
  rewrite (Z.mod_small (v mod 65536 / 256)) by
    (split; [apply Z.div_pos; lia | apply Z.div_lt_upper_bound; lia]).
  rewrite Z.mod_mod by lia.
  pose proof (Z.div_mod (v mod 65536) 256). lia.
Qed.

Lemma zrange_In (n : nat) : forall a z, a <= z < a + Z.of_nat n -> In z (zrange n a).
Proof using Type.
  induction n as [|n IH]; intros a z H; [lia|].
  cbn [zrange]. destruct (Z.eq_dec a z) as [->|N]; [now left|].
  right. apply IH. lia.
Qed.

Lemma uint16_of_whole_all :
  forallb (fun n => uint16_of_float (F32.of_Z n) =? n) (zrange (Z.to_nat 65536) 0) = true.
Proof using Type. vm_compute. reflexivity. Qed.

(** A whole number of 16 bits, held in a float, converts back to itself. *)
Lemma uint16_of_whole (n : Z) :
  0 <= n < 65536 -> uint16_of_float (F32.of_Z n) = n.
Proof using Type.
  intros H. apply Z.eqb_eq.
  apply (proj1 (forallb_forall _ _) uint16_of_whole_all n).
  apply zrange_In. rewrite Z2Nat.id; lia.
Qed.

(** C4 (as amended).  A valid M101 with function read-coils sends one
    request, to the zero-based register index P - 1, whose count field
    is the value Q held by the block (as a 16-bit number), not a fixed
    count of 1: a whole Q of 16 bits is the count itself. *)
Theorem read_coils_count_is_value
        (fuel : nat) (state : Z) (gc_block gc_block' : parser_block_t) (w : world) :
  user_mcode gc_block = UserMCode_Generic1 ->
  values_e (values gc_block) = F32.of_Z ModBus_ReadCoils ->
  mbio_validate gc_block = (Status_OK, gc_block') ->
  exists w' f,
    mbio_execute fuel state gc_block' w = Some w' /\
    sent_frames (trace w') = sent_frames (trace w) ++ [f] /\
    f = ReadCoils_frame (char_of_float (values_d (values gc_block)))
                        (u16 (uint16_of_float (values_p (values gc_block)) - 1))
                        (uint16_of_float (values_q (values gc_block))) /\
    adu_at f 1 = ModBus_ReadCoils /\
    adu_at f 4 * 256 + adu_at f 5 = uint16_of_float (values_q (values gc_block)) /\
    (forall n, 0 <= n < 65536 -> values_q (values gc_block) = F32.of_Z n ->
               adu_at f 4 * 256 + adu_at f 5 = n).
Proof using Type.
  intros Hm He Hv.
  rewrite (validate_M101_block _ _ Hm Hv), He, char_of_ReadCoils.
  unfold mbio_execute. cbn. rewrite Hm, He, char_of_ReadCoils. cbn.
  eexists. eexists. split; [reflexivity|].
  split; [apply send_command_frames|].
  split; [reflexivity|]. split; [reflexivity|].
  assert (E : forall v, adu_at (ReadCoils_frame (char_of_float (values_d (values gc_block)))
                                  (u16 (uint16_of_float (values_p (values gc_block)) - 1))
                                  (uint16_of_float v)) 4 * 256
                        + adu_at (ReadCoils_frame (char_of_float (values_d (values gc_block)))
                                    (u16 (uint16_of_float (values_p (values gc_block)) - 1))
                                    (uint16_of_float v)) 5
                        = uint16_of_float v).
  { intros v. unfold adu_at, ReadCoils_frame. cbn [adu nth].
    rewrite frame_value_bytes.
    unfold uint16_of_float, F32.to_unsigned, F32.unsigned_of_integral, u16.
    destruct (F32.trunc v); [|reflexivity].
    change (2 ^ 16) with 65536. apply Z.mod_mod. lia. }
  split; [apply E|].
  intros n Hn Hq. rewrite E, Hq. now apply uint16_of_whole.
Qed.

(** C8.  The validator leaves the value of a valid M101 with function
    write-coil as it is; the executor then sends one write-coil request
    whose value bytes are 0x00 0x00 when the value is 0 and 0xFF 0x00
    when it is not.  The value is [(uint16_t)Q], which is Q itself for a
    whole Q of 16 bits. *)
Theorem write_coil_coercion
        (fuel : nat) (state : Z) (gc_block gc_block' : parser_block_t) (w : world) :
  user_mcode gc_block = UserMCode_Generic1 ->
  values_e (values gc_block) = F32.of_Z ModBus_WriteCoil ->
  mbio_validate gc_block = (Status_OK, gc_block') ->
  values_q (values gc_block') = values_q (values gc_block) /\
  exists w' f,
    mbio_execute fuel state gc_block' w = Some w' /\
    sent_frames (trace w') = sent_frames (trace w) ++ [f] /\
    adu_at f 1 = ModBus_WriteCoil /\
    (uint16_of_float (values_q (values gc_block)) = 0 ->
     adu_at f 4 = 0x00 /\ adu_at f 5 = 0x00) /\
    (uint16_of_float (values_q (values gc_block)) <> 0 ->
     adu_at f 4 = 0xFF /\ adu_at f 5 = 0x00) /\
    (forall n, 0 <= n < 65536 -> values_q (values gc_block) = F32.of_Z n ->
               uint16_of_float (values_q (values gc_block)) = n).
Proof using Type.
  intros Hm He Hv.
  rewrite (validate_M101_block _ _ Hm Hv), He, char_of_WriteCoil.
  split; [reflexivity|].
  unfold mbio_execute. cbn. rewrite Hm, He, char_of_WriteCoil. cbn.
  eexists. eexists. split; [reflexivity|].
  split; [apply send_command_frames|].
  split; [reflexivity|].
  assert (B : 0 <= uint16_of_float (values_q (values gc_block))).
  { unfold uint16_of_float, F32.to_unsigned, F32.unsigned_of_integral.
    destruct (F32.trunc _); [apply Z.mod_pos_bound|]; lia. }
  unfold adu_at, WriteCoil_frame. cbn [adu nth].
  destruct (0 <? uint16_of_float (values_q (values gc_block))) eqn:P.
  - apply Z.ltb_lt in P. split; [lia|]. split.
    + intros _. split; reflexivity.
    + intros n Hn ->. now apply uint16_of_whole.
  - apply Z.ltb_ge in P. split; [intros _; split; reflexivity|]. split; [lia|].
    intros n Hn ->. now apply uint16_of_whole.
Qed.

(** ** The poll loop *)

Lemma pause_effect (w : world) :
  let w' := hal_delay_ms 50 (protocol_execute_realtime w) in
  var5399 (sys w') = var5399 (sys w) /\
  abort (sys w') = abort (sys w) || realtime_abort (trace w) /\
  sent_frames (trace w') = sent_frames (trace w) /\
  sleeps (trace w') = sleeps (trace w) ++ [50].
Proof using Type.
  cbn. repeat split; rewrite ?sent_frames_app, ?sleeps_app; cbn;
    now rewrite ?app_nil_r.
Qed.

(** With fuel for [delay] iterations (one at least) the loop returns.
    It sends the same read request [k] times, [k] being at most [delay]
    (one when [delay] is 0), and it returns [value] when the last read
    left it in [var5399], and -1 otherwise. *)
Lemma wait_loop_returns (device_address register_address value : Z) (fuel : nat) :
  forall (delay : Z) (w : world),
    0 <= uint_fast16_bits ->
    0 <= delay < 2 ^ uint_fast16_bits ->
    (1 <= fuel)%nat -> (Z.to_nat delay <= fuel)%nat ->
    exists ret delay' w' k,
      wait_loop fuel device_address register_address value delay w = Some (ret, delay', w') /\
      (1 <= k)%nat /\ Z.of_nat k <= Z.max 1 delay /\
      sent_frames (trace w') =
        sent_frames (trace w) ++
        repeat (ReadDiscreteInputs_frame device_address register_address 1) k /\
      ((ret = value /\ var5399 (sys w') = value) \/
       (ret = -1 /\ var5399 (sys w') <> value)).
Proof using Type.
  induction fuel as [|fuel IH]; intros delay w HW Hd H1 Hf; [lia|].
  cbn [wait_loop].
  set (w1 := mbio_ModBus_ReadDiscreteInputs device_address register_address 1 w).
  assert (F1 : sent_frames (trace w1) =
               sent_frames (trace w) ++
               [ReadDiscreteInputs_frame device_address register_address 1])
    by apply send_command_frames.
  destruct (var5399 (sys w1) =? value) eqn:M.
  { apply Z.eqb_eq in M. exists value, delay, w1, 1%nat.
    split; [reflexivity|]. split; [lia|]. split; [lia|].
    split; [exact F1 | now left]. }
  apply Z.eqb_neq in M.
  destruct (delay =? 0) eqn:D0; cbn [negb].
  { exists (-1), delay, w1, 1%nat.
    split; [reflexivity|]. split; [lia|]. split; [lia|].
    split; [exact F1 | now right]. }
  apply Z.eqb_neq in D0.
  destruct (pause_effect w1) as (P1 & P2 & P3 & P4).
  set (w2 := hal_delay_ms 50 (protocol_execute_realtime w1)) in *.
  rewrite (Z.mod_small (delay - 1)) by lia.
  destruct (negb (delay - 1 =? 0) && negb (abort (sys w2))) eqn:C.
  - apply andb_true_iff in C. destruct C as [C _].
    apply negb_true_iff, Z.eqb_neq in C.
    destruct (IH (delay - 1) w2 HW) as (ret & delay' & w' & k & E & K1 & K2 & Fr & R);
      try lia.
    exists ret, delay', w', (S k).
    split; [exact E|]. split; [lia|]. split; [lia|]. split; [|exact R].
    rewrite Fr, P3, F1, <- app_assoc. reflexivity.
  - exists (-1), (delay - 1), w2, 1%nat.
    split; [reflexivity|]. split; [lia|]. split; [lia|]. split.
    + rewrite P3. exact F1.
    + right. split; [reflexivity|]. rewrite P1. exact M.
Qed.

(** Signs: what is computed from non-negative floats is not negative. *)
Lemma binary_round_aux_sign (s : bool) (m e : Z) (l : location) :
  s = false -> not_negative (binary_round_aux F32.prec F32.emax s m e l).
Proof using Type.
  intros ->. unfold binary_round_aux.
  destruct (shr_fexp _ _ _ _ _) as [mrs' e'].
  destruct (shr_fexp _ _ _ _ _) as [mrs'' e''].
  destruct (shr_m mrs''); cbn; trivial.
  destruct (e'' <=? _); reflexivity.
Qed.

Lemma of_Z_not_negative (z : Z) : 0 <= z -> not_negative (F32.of_Z z).
Proof using Type.
  intros H. unfold F32.of_Z, binary_normalize.
  destruct z as [|p|p]; [reflexivity| |lia].
  unfold binary_round. destruct (shl_align _ _ _).
  now apply binary_round_aux_sign.
Qed.

Lemma div_not_negative (x y : float) :
  not_negative x -> not_negative y -> not_negative (F32.div x y).
Proof using Type.
  unfold F32.div, SFdiv.
  destruct x as [sx|sx| |sx mx ex], y as [sy|sy| |sy my ey]; cbn;
    intros Hx Hy; subst; cbn; try reflexivity; try exact I.
  destruct (SFdiv_core_binary _ _ _ _ _ _) as [[mz ez] lz].
  now apply binary_round_aux_sign.
Qed.

Lemma mul_not_negative (x y : float) :
  not_negative x -> not_negative y -> not_negative (F32.mul x y).
Proof using Type.
  unfold F32.mul, SFmul.
  destruct x as [sx|sx| |sx mx ex], y as [sy|sy| |sy my ey]; cbn;
    intros Hx Hy; subst; cbn; try reflexivity; try exact I.
  now apply binary_round_aux_sign.
Qed.

Lemma ceilf_not_negative (x : float) (c : Z) :
  not_negative x -> F32.ceilf x = Some c -> 0 <= c.
Proof using Type.
  destruct x as [s|s| |s m e]; unfold F32.ceilf, not_negative;
    intros Hx H; try discriminate.
  - inversion H. lia.
  - subst s. destruct e as [|k|k]; injection H as <-.
    + lia.
    + change (0 <= Z.shiftl (Z.pos m) (Z.pos k)).
      apply Z.shiftl_nonneg. lia.
    + change (0 <= (Z.pos m + Z.shiftl 1 (Z.pos k) - 1) / Z.shiftl 1 (Z.pos k)).
      assert (P : 0 < Z.shiftl 1 (Z.pos k))
        by (rewrite Z.shiftl_1_l; apply Z.pow_pos_nonneg; lia).
      apply Z.div_pos; lia.
Qed.

Lemma le_zero_not_negative (x : float) :
  SFleb (F32.of_Z 0) x = true -> not_negative x \/ exists s, x = S754_zero s.
Proof using Type.
  destruct x as [s|s| |s m e]; cbn; intros H; try discriminate.
  - right. now exists s.
  - left. destruct s; [discriminate|reflexivity].
  - left. destruct s; [discriminate|reflexivity].
Qed.

Lemma steps_not_negative (timeout : float) (c : Z) :
  0 < MBIO_WAIT_STEP ->
  SFleb (F32.of_Z 0) timeout = true ->
  F32.ceilf (F32.mul (F32.div (F32.of_Z 1000) (F32.of_Z MBIO_WAIT_STEP)) timeout) = Some c ->
  0 <= c.
Proof using Type.
  intros HS Ht Hc.
  assert (K : not_negative (F32.div (F32.of_Z 1000) (F32.of_Z MBIO_WAIT_STEP)))
    by (apply div_not_negative; apply of_Z_not_negative; lia).
  destruct (le_zero_not_negative timeout Ht) as [N | [s ->]].
  - apply (ceilf_not_negative _ c (mul_not_negative _ _ K N) Hc).
  - revert Hc. unfold F32.mul.
    destruct (F32.div (F32.of_Z 1000) (F32.of_Z MBIO_WAIT_STEP));
      cbn; intros Hc; try discriminate; injection Hc as <-; lia.
Qed.


(** The step count of a non-negative timeout, where the conversion to
    [uint_fast16_t] is defined and adding the extra step does not wrap. *)
Lemma wait_steps_fits (timeout : float) (c : Z) :
  0 <= uint_fast16_bits ->
  0 < MBIO_WAIT_STEP ->
  SFleb (F32.of_Z 0) timeout = true ->
  F32.ceilf (F32.mul (F32.div (F32.of_Z 1000) (F32.of_Z MBIO_WAIT_STEP)) timeout) = Some c ->
  c + 1 < 2 ^ uint_fast16_bits ->
  wait_steps timeout = c + 1.
Proof using Type.
  intros HW HS Ht Hc Hfit.
  pose proof (steps_not_negative timeout c HS Ht Hc) as C0.
  unfold wait_steps. rewrite Hc. unfold F32.unsigned_of_integral.
  rewrite (Z.mod_small c) by lia. apply Z.mod_small. lia.
Qed.


(** C6 (as amended).  When the abort flag is set before the loop starts,
    the loop still makes its first iteration: it sends one read request.
    If that read leaves the target in [var5399] the loop returns the
    target and does nothing more; otherwise it calls the realtime
    handler once, sleeps 50 ms once and returns -1 (it does neither when
    the step count is 0, which a non-negative timeout whose count fits
    [uint_fast16_t] never gives).  Nothing else is done after the read:
    no second request is sent, and [sys] is as the read left it. *)
Theorem abort_set_before_loop
        (fuel : nat) (device_address register_address value : Z)
        (timeout : float) (w : world) :
  (1 <= fuel)%nat ->
  abort (sys w) = true ->
  exists ret w',
    mbio_Wait_ReadDiscreteInputs fuel device_address register_address value timeout w
      = Some (ret, w') /\
    sent_frames (trace w') =
      sent_frames (trace w) ++
      [ReadDiscreteInputs_frame device_address register_address 1] /\
    (var5399 (sys w') = value -> ret = value /\ sleeps (trace w') = sleeps (trace w)) /\
    (var5399 (sys w') <> value ->
     ret = -1 /\
     sleeps (trace w') =
       sleeps (trace w) ++ (if wait_steps timeout =? 0 then [] else [50])) /\
    sys w' = sys (mbio_ModBus_ReadDiscreteInputs device_address register_address 1 w) /\
    trace w' =
      trace (mbio_ModBus_ReadDiscreteInputs device_address register_address 1 w) ++
      (if (var5399 (sys w') =? value) || (wait_steps timeout =? 0)
       then []
       else [Ev_execute_realtime; Ev_delay_ms 50]) /\
    (forall c,
        0 <= uint_fast16_bits ->
        0 < MBIO_WAIT_STEP ->
        SFleb (F32.of_Z 0) timeout = true ->
        F32.ceilf (F32.mul (F32.div (F32.of_Z 1000) (F32.of_Z MBIO_WAIT_STEP)) timeout)
          = Some c ->
        c + 1 < 2 ^ uint_fast16_bits ->
        (wait_steps timeout =? 0) = false).
Proof using Type.
  intros Hfuel Ha.
  assert (Fit : forall c,
             0 <= uint_fast16_bits ->
             0 < MBIO_WAIT_STEP ->
             SFleb (F32.of_Z 0) timeout = true ->
             F32.ceilf (F32.mul (F32.div (F32.of_Z 1000) (F32.of_Z MBIO_WAIT_STEP)) timeout)
               = Some c ->
             c + 1 < 2 ^ uint_fast16_bits ->
             (wait_steps timeout =? 0) = false).
  { intros c HW HS Ht Hc Hfit.
    pose proof (steps_not_negative timeout c HS Ht Hc) as C0.
    rewrite (wait_steps_fits timeout c HW HS Ht Hc Hfit). apply Z.eqb_neq. lia. }
  destruct fuel as [|fuel]; [lia|].
  unfold mbio_Wait_ReadDiscreteInputs. cbn [wait_loop].
  set (w1 := mbio_ModBus_ReadDiscreteInputs device_address register_address 1 w).
  destruct (send_command_frames
              (ReadDiscreteInputs_frame device_address register_address 1) true w)
    as [F1 S1].
  fold (mbio_ModBus_ReadDiscreteInputs device_address register_address 1 w) in F1, S1.
  fold w1 in F1, S1.
  assert (A1 : abort (sys w1) = true)
    by (unfold w1, mbio_ModBus_ReadDiscreteInputs; now rewrite send_command_abort).
  destruct (var5399 (sys w1) =? value) eqn:M.
  { exists value, w1. rewrite M. apply Z.eqb_eq in M.
    split; [reflexivity|]. split; [exact F1|]. split; [now split|].
    split; [intros N; contradiction|].
    split; [reflexivity|]. split; [now rewrite app_nil_r | exact Fit]. }
  destruct (wait_steps timeout =? 0) eqn:D0; cbn [negb].
  { exists (-1), w1. rewrite M. apply Z.eqb_neq in M.
    split; [reflexivity|]. split; [exact F1|]. split; [intros N; contradiction|].
    split; [intros _; split; [reflexivity | now rewrite app_nil_r]|].
    split; [reflexivity|]. split; [now rewrite app_nil_r | exact Fit]. }
  destruct (pause_effect w1) as (P1 & P2 & P3 & P4).
  set (w2 := hal_delay_ms 50 (protocol_execute_realtime w1)) in *.
  rewrite P2, A1. cbn [orb negb]. rewrite andb_false_r.
  exists (-1), w2. rewrite P1, M. apply Z.eqb_neq in M.
  split; [reflexivity|]. split; [now rewrite P3|].
  rewrite P4, S1. split; [intros N; contradiction|].
  split; [intros _; now split|].
  split; [|split; [|exact Fit]].
  - unfold w2, hal_delay_ms, protocol_execute_realtime, log, set_abort. cbn [sys].
    rewrite A1. cbn [orb]. rewrite <- A1. destruct (sys w1); reflexivity.
  - unfold w2, hal_delay_ms, protocol_execute_realtime, log, set_abort. cbn [trace orb].
    now rewrite <- app_assoc.
Qed.

(** ** Further properties of the validator *)

(** [mbio_validate] on M101, by stages. *)
Lemma validate_M101_stages (gc_block : parser_block_t) :
  user_mcode gc_block = UserMCode_Generic1 ->
  mbio_validate gc_block =
    if format_error_M101 gc_block then (Status_BadNumberFormat, gc_block)
    else if range_error_M101 gc_block
         then (Status_GcodeValueOutOfRange,
               set_words gc_block (claim_M101 (words gc_block)))
         else (Status_OK,
               set_words (forced_M101 gc_block) (claim_M101 (words gc_block))).
Proof using Type.
  intros Hm. unfold mbio_validate, format_error_M101. rewrite Hm. cbv zeta.
  fold (range_error_M101 gc_block). fold (forced_M101 gc_block).
  destruct (negb (words_d (words gc_block)) || negb (isintf (values_d (values gc_block))));
    destruct (negb (words_e (words gc_block)) || negb (isintf (values_e (values gc_block))));
    destruct (negb (words_p (words gc_block)) || negb (isintf (values_p (values gc_block))));
    destruct (words_q (words gc_block) && negb (isintf (values_q (values gc_block))));
    cbn [orb negb is_BadNumberFormat]; try reflexivity;
    destruct (range_error_M101 gc_block); try reflexivity;
    unfold forced_M101;
    destruct ((char_of_float (values_e (values gc_block)) =? ModBus_ReadDiscreteInputs)
              || (char_of_float (values_e (values gc_block)) =? ModBus_ReadInputRegisters));
    reflexivity.
Qed.

(** [mbio_validate] on M102, by stages. *)
Lemma validate_M102_stages (gc_block : parser_block_t) :
  user_mcode gc_block = UserMCode_Generic2 ->
  mbio_validate gc_block =
    if format_error_M102 gc_block then (Status_BadNumberFormat, gc_block)
    else (if range_error_M102 gc_block then Status_GcodeValueOutOfRange else Status_OK,
          set_words gc_block (claim_M102 (words gc_block))).
Proof using Type.
  intros Hm. unfold mbio_validate, format_error_M102. rewrite Hm. cbv zeta.
  fold (range_error_M102 gc_block).
  destruct (negb (words_d (words gc_block)) || negb (isintf (values_d (values gc_block))));
    destruct (negb (words_p (words gc_block)) || negb (isintf (values_p (values gc_block))));
    destruct (negb (words_q (words gc_block)) || negb (isintf (values_q (values gc_block))));
    destruct (negb (words_r (words gc_block)) || F32.isnanf (values_r (values gc_block)));
    cbn [orb negb is_BadNumberFormat]; try reflexivity;
    destruct (range_error_M102 gc_block); reflexivity.
Qed.

Lemma SFeqb_finite (x : float) (s : bool) (m : positive) (e : Z) :
  SFeqb x (S754_finite s m e) = true -> x = S754_finite s m e.
Proof using Type.
  unfold SFeqb. destruct x as [sx|sx| |sx mx ex]; cbn;
    try discriminate; try (destruct sx; discriminate); try (destruct s; discriminate).
  destruct sx, s; try discriminate;
    destruct (ex ?= e) eqn:E; try discriminate;
    apply Z.compare_eq in E; subst ex;
    change (Pos.compare_cont Eq mx m) with (Pos.compare mx m);
    destruct (Pos.compare mx m) eqn:M; try discriminate;
    apply Pos.compare_eq in M; subst mx; reflexivity.
Qed.

Lemma ne_false_finite (x : float) (k : Z) (s : bool) (m : positive) (e : Z) :
  F32.of_Z k = S754_finite s m e -> F32.ne x (F32.of_Z k) = false -> x = F32.of_Z k.
Proof using Type.
  intros E H. rewrite E in *. apply SFeqb_finite.
  unfold F32.ne in H. now apply negb_false_iff in H.
Qed.

Lemma function_code_iff (e : float) :
  F32.ne e (F32.of_Z ModBus_ReadDiscreteInputs)
  && F32.ne e (F32.of_Z ModBus_ReadInputRegisters)
  && F32.ne e (F32.of_Z ModBus_WriteCoil)
  && F32.ne e (F32.of_Z ModBus_WriteRegister)
  && F32.ne e (F32.of_Z ModBus_ReadHoldingRegisters)
  && F32.ne e (F32.of_Z ModBus_ReadCoils) = false
  <-> In e function_codes.
Proof using Type.
  split; [|apply six_codes_pass].
  intros H. unfold function_codes. cbn [map In].
  repeat (apply andb_false_iff in H; destruct H as [H|H]);
    eapply ne_false_finite in H; try reflexivity; rewrite H; auto 10.
Qed.

Lemma range_check_passes (lo hi : Z) (x : float) :
  F32.isnanf (F32.of_Z lo) = false -> F32.isnanf (F32.of_Z hi) = false ->
  (F32.lt x (F32.of_Z lo) || F32.gt x (F32.of_Z hi) = false <-> passes_range lo hi x).
Proof using Type. apply range_check_value. Qed.

Lemma range_error_M101_false (gc_block : parser_block_t) :
  range_error_M101 gc_block = false <->
  passes_range 0 247 (values_d (values gc_block)) /\
  In (values_e (values gc_block)) function_codes /\
  passes_range 1 9999 (values_p (values gc_block)) /\
  passes_range 0 65535 (values_q (values gc_block)).
Proof using Type.
  unfold range_error_M101. cbv zeta.
  rewrite <- (range_check_passes 0 247 _ eq_refl eq_refl).
  rewrite <- (range_check_passes 1 9999 _ eq_refl eq_refl).
  rewrite <- (range_check_passes 0 65535 _ eq_refl eq_refl).
  rewrite <- function_code_iff.
  repeat rewrite orb_false_iff. split.
  - intros [[[[[[A B] C] D] E] F] G]. repeat split; assumption.
  - intros [[A B] [C [[D E] [F G]]]]. repeat split; assumption.
Qed.

Lemma range_error_M102_false (gc_block : parser_block_t) :
  range_error_M102 gc_block = false <->
  passes_range 0 247 (values_d (values gc_block)) /\
  passes_range 1 9999 (values_p (values gc_block)) /\
  passes_range 0 1 (values_q (values gc_block)) /\
  passes_range 0 3600 (values_r (values gc_block)).
Proof using Type.
  unfold range_error_M102. cbv zeta.
  rewrite <- (range_check_passes 0 247 _ eq_refl eq_refl).
  rewrite <- (range_check_passes 1 9999 _ eq_refl eq_refl).
  rewrite <- (range_check_passes 0 1 _ eq_refl eq_refl).
  rewrite <- (range_check_passes 0 3600 _ eq_refl eq_refl).
  repeat rewrite orb_false_iff. split.
  - intros [[[[[[[A B] C] D] E] F] G] H]. repeat split; assumption.
  - intros [[A B] [[C D] [[E F] [G H]]]]. repeat split; assumption.
Qed.

Lemma format_error_M101_false (gc_block : parser_block_t) :
  format_error_M101 gc_block = false <->
  (words_d (words gc_block) = true /\ isintf (values_d (values gc_block)) = true) /\
  (words_e (words gc_block) = true /\ isintf (values_e (values gc_block)) = true) /\
  (words_p (words gc_block) = true /\ isintf (values_p (values gc_block)) = true) /\
  (words_q (words gc_block) = true -> isintf (values_q (values gc_block)) = true).
Proof using Type.
  unfold format_error_M101. cbv zeta.
  repeat rewrite orb_false_iff. repeat rewrite negb_false_iff. split.
  - intros [[[[A B] [C D]] [E F]] G]. repeat split; try assumption.
    intros W. rewrite W in G. now apply negb_false_iff in G.
  - intros [[A B] [[C D] [[E F] G]]]. repeat split; try assumption.
    destruct (words_q (words gc_block)); [rewrite G|]; reflexivity.
Qed.

Lemma format_error_M102_false (gc_block : parser_block_t) :
  format_error_M102 gc_block = false <->
  (words_d (words gc_block) = true /\ isintf (values_d (values gc_block)) = true) /\
  (words_p (words gc_block) = true /\ isintf (values_p (values gc_block)) = true) /\
  (words_q (words gc_block) = true /\ isintf (values_q (values gc_block)) = true) /\
  (words_r (words gc_block) = true /\ F32.isnanf (values_r (values gc_block)) = false).
Proof using Type.
  unfold format_error_M102. cbv zeta.
  repeat rewrite orb_false_iff. repeat rewrite negb_false_iff. split.
  - intros [[[[A B] [C D]] [E F]] [G H]]. repeat split; assumption.
  - intros [[A B] [[C D] [[E F] [G H]]]]. repeat split; assumption.
Qed.

(** X1.  M101 is valid exactly when D, E and P are present and whole, Q is
    whole if present, the device address passes [0,247], the function
    code is one of the six, the register address passes [1,9999] and the
    value passes [0,65535].  So a device address, a function code or a
    register address out of range is never accepted. *)
Theorem validate_M101_accepts_iff (gc_block : parser_block_t) :
  user_mcode gc_block = UserMCode_Generic1 ->
  (fst (mbio_validate gc_block) = Status_OK <->
   ((words_d (words gc_block) = true /\ isintf (values_d (values gc_block)) = true) /\
    (words_e (words gc_block) = true /\ isintf (values_e (values gc_block)) = true) /\
    (words_p (words gc_block) = true /\ isintf (values_p (values gc_block)) = true) /\
    (words_q (words gc_block) = true -> isintf (values_q (values gc_block)) = true)) /\
   passes_range 0 247 (values_d (values gc_block)) /\
   In (values_e (values gc_block)) function_codes /\
   passes_range 1 9999 (values_p (values gc_block)) /\
   passes_range 0 65535 (values_q (values gc_block))).
Proof using Type.
  intros Hm. rewrite (validate_M101_stages _ Hm).
  rewrite <- format_error_M101_false, <- range_error_M101_false.
  destruct (format_error_M101 gc_block), (range_error_M101 gc_block); cbn;
    split; try discriminate; try (intros [? ?]; discriminate); auto.
Qed.

(** X2.  M102 is valid exactly when D, P and Q are present and whole, R is
    present and not a NaN, the device address passes [0,247], the
    register address passes [1,9999], the target passes [0,1] and the
    timeout passes [0,3600]. *)
Theorem validate_M102_accepts_iff (gc_block : parser_block_t) :
  user_mcode gc_block = UserMCode_Generic2 ->
  (fst (mbio_validate gc_block) = Status_OK <->
   ((words_d (words gc_block) = true /\ isintf (values_d (values gc_block)) = true) /\
    (words_p (words gc_block) = true /\ isintf (values_p (values gc_block)) = true) /\
    (words_q (words gc_block) = true /\ isintf (values_q (values gc_block)) = true) /\
    (words_r (words gc_block) = true /\ F32.isnanf (values_r (values gc_block)) = false)) /\
   passes_range 0 247 (values_d (values gc_block)) /\
   passes_range 1 9999 (values_p (values gc_block)) /\
   passes_range 0 1 (values_q (values gc_block)) /\
   passes_range 0 3600 (values_r (values gc_block))).
Proof using Type.
  intros Hm. rewrite (validate_M102_stages _ Hm).
  rewrite <- format_error_M102_false, <- range_error_M102_false.
  destruct (format_error_M102 gc_block), (range_error_M102 gc_block); cbn;
    split; try discriminate; try (intros [? ?]; discriminate); auto.
Qed.

(** X3.  When M101 or M102 gets past the format checks, its words are
    claimed, on an out-of-range result as well as on a valid one: D, E,
    P, Q for M101 and D, P, Q, R for M102 are switched off and the other
    word is kept; the M-code and the values of D, E, P and R stay. *)
Theorem validate_claims_words (gc_block : parser_block_t) :
  fst (mbio_validate gc_block) = Status_OK \/
  fst (mbio_validate gc_block) = Status_GcodeValueOutOfRange ->
  (user_mcode gc_block = UserMCode_Generic1 ->
   words (snd (mbio_validate gc_block)) = claim_M101 (words gc_block)) /\
  (user_mcode gc_block = UserMCode_Generic2 ->
   words (snd (mbio_validate gc_block)) = claim_M102 (words gc_block)) /\
  (user_mcode gc_block = UserMCode_Generic1 \/ user_mcode gc_block = UserMCode_Generic2 ->
   user_mcode (snd (mbio_validate gc_block)) = user_mcode gc_block /\
   values_d (values (snd (mbio_validate gc_block))) = values_d (values gc_block) /\
   values_e (values (snd (mbio_validate gc_block))) = values_e (values gc_block) /\
   values_p (values (snd (mbio_validate gc_block))) = values_p (values gc_block) /\
   values_r (values (snd (mbio_validate gc_block))) = values_r (values gc_block)).
Proof using Type.
  intros HS.
  assert (G1 : user_mcode gc_block = UserMCode_Generic1 ->
               snd (mbio_validate gc_block) =
                 set_words gc_block (claim_M101 (words gc_block)) \/
               snd (mbio_validate gc_block) =
                 set_words (set_values_q gc_block (F32.of_Z 1)) (claim_M101 (words gc_block))).
  { intros Hm. revert HS. rewrite (validate_M101_stages _ Hm).
    destruct (format_error_M101 gc_block); cbn;
      [intros [H|H]; discriminate|].
    destruct (range_error_M101 gc_block); cbn; intros _; [now left|].
    unfold forced_M101. destruct (_ || _); [now right | now left]. }
  assert (G2 : user_mcode gc_block = UserMCode_Generic2 ->
               snd (mbio_validate gc_block) =
                 set_words gc_block (claim_M102 (words gc_block))).
  { intros Hm. revert HS. rewrite (validate_M102_stages _ Hm).
    destruct (format_error_M102 gc_block); cbn;
      [intros [H|H]; discriminate|]. reflexivity. }
  split; [|split].
  - intros Hm. destruct (G1 Hm) as [-> | ->]; reflexivity.
  - intros Hm. now rewrite (G2 Hm).
  - intros [Hm|Hm].
    + destruct (G1 Hm) as [-> | ->]; repeat split.
    + rewrite (G2 Hm). repeat split.
Qed.

(** X4.  A valid M101 leaves the value Q as it is, except for the
    functions read-discrete-inputs and read-input-registers, where the
    value becomes 1 whatever was given. *)
Theorem validate_forces_count (gc_block : parser_block_t) :
  user_mcode gc_block = UserMCode_Generic1 ->
  fst (mbio_validate gc_block) = Status_OK ->
  values_q (values (snd (mbio_validate gc_block))) =
    if SFeqb (values_e (values gc_block)) (F32.of_Z ModBus_ReadDiscreteInputs)
       || SFeqb (values_e (values gc_block)) (F32.of_Z ModBus_ReadInputRegisters)
    then F32.of_Z 1
    else values_q (values gc_block).
Proof using Type.
  intros Hm. rewrite (validate_M101_stages _ Hm).
  destruct (format_error_M101 gc_block); cbn; [discriminate|].
  destruct (range_error_M101 gc_block) eqn:R; cbn; [discriminate|]. intros _.
  apply range_error_M101_false in R. destruct R as (_ & He & _).
  unfold forced_M101, function_codes in *. cbn [map In] in He.
  repeat (destruct He as [<-|He]; [reflexivity|]). destruct He.
Qed.

(** X5.  A block that M101 or M102 has claimed does not validate again:
    its words are gone, so the second validation reports a format
    error. *)
Theorem validate_twice (gc_block : parser_block_t) :
  user_mcode gc_block = UserMCode_Generic1 \/ user_mcode gc_block = UserMCode_Generic2 ->
  fst (mbio_validate gc_block) = Status_OK \/
  fst (mbio_validate gc_block) = Status_GcodeValueOutOfRange ->
  fst (mbio_validate (snd (mbio_validate gc_block))) = Status_BadNumberFormat.
Proof using Type.
  intros [Hm|Hm] HS; revert HS.
  - rewrite (validate_M101_stages _ Hm).
    destruct (format_error_M101 gc_block); cbn; [intros [H|H]; discriminate|].
    destruct (range_error_M101 gc_block); cbn; intros _.
    + now rewrite (validate_M101_stages (set_words gc_block _) Hm).
    + unfold forced_M101. destruct (_ || _).
      * now rewrite (validate_M101_stages (set_words (set_values_q gc_block _) _) Hm).
      * now rewrite (validate_M101_stages (set_words gc_block _) Hm).
  - rewrite (validate_M102_stages _ Hm).
    destruct (format_error_M102 gc_block); cbn; [intros [H|H]; discriminate|].
    intros _. now rewrite (validate_M102_stages (set_words gc_block _) Hm).
Qed.

(** ** Further properties of the executor *)

Lemma execute_M101_request (fuel : nat) (state : Z) (gc_block : parser_block_t) (w : world) :
  user_mcode gc_block = UserMCode_Generic1 ->
  mbio_execute fuel state gc_block w =
    Some match M101_request gc_block with
         | Some f => mbio_modbus_send_command f true w
         | None => w
         end.
Proof using Type.
  intros Hm. unfold mbio_execute, M101_request. rewrite Hm. cbv zeta.
  repeat match goal with |- context [if ?c =? ?k then _ else _] =>
           destruct (c =? k) end; reflexivity.
Qed.

Lemma char_of_whole_all :
  forallb (fun n => char_of_float (F32.of_Z n) =? n) (zrange (Z.to_nat 256) 0) = true.
Proof using Type. vm_compute. reflexivity. Qed.

(** A whole number of 8 bits, held in a float, converts back to itself. *)
Lemma char_of_whole (n : Z) : 0 <= n < 256 -> char_of_float (F32.of_Z n) = n.
Proof using Type.
  intros H. apply Z.eqb_eq.
  apply (proj1 (forallb_forall _ _) char_of_whole_all n).
  apply zrange_In. rewrite Z2Nat.id; lia.
Qed.

Lemma u8_is_byte (z : Z) : is_byte (u8 z).
Proof using Type. unfold is_byte, u8. apply Z.mod_pos_bound. lia. Qed.

(** The bytes that every request of M101 shares. *)
Lemma M101_request_head (gc_block : parser_block_t) (f : modbus_message_t) :
  M101_request gc_block = Some f ->
  adu_at f 0 = u8 (char_of_float (values_d (values gc_block))) /\
  adu_at f 1 = char_of_float (values_e (values gc_block)) /\
  adu_at f 2 * 256 + adu_at f 3 = u16 (uint16_of_float (values_p (values gc_block)) - 1) /\
  Forall is_byte (adu f) /\ List.length (adu f) = 6%nat /\
  context f = MBIO_Command /\ crc_check f = true /\ tx_length f = 8.
Proof using Type.
  unfold M101_request. cbv zeta.
  pose proof (frame_value_bytes (u16 (uint16_of_float (values_p (values gc_block)) - 1))) as R.
  assert (U : forall z, u16 (u16 z) = u16 z)
    by (intros z; unfold u16; apply Z.mod_mod; lia).
  repeat match goal with |- context [if ?c =? ?k then _ else _] =>
           let E := fresh "E" in destruct (c =? k) eqn:E end;
    intros H; try discriminate; injection H as <-;
    repeat match goal with E : (_ =? _) = true |- _ => apply Z.eqb_eq in E end;
    repeat match goal with E : (_ =? _) = false |- _ => clear E end;
    try (exfalso; unfold ModBus_ReadCoils, ModBus_ReadDiscreteInputs,
           ModBus_ReadInputRegisters, ModBus_ReadHoldingRegisters, ModBus_WriteCoil,
           ModBus_WriteRegister in *; congruence);
    (split; [reflexivity|]);
    (split; [cbn; unfold ModBus_ReadCoils, ModBus_ReadDiscreteInputs,
               ModBus_ReadInputRegisters, ModBus_ReadHoldingRegisters, ModBus_WriteCoil,
               ModBus_WriteRegister in *; congruence|]);
    (split; [etransitivity; [exact R | apply U]|]);
    (split; [|repeat split]);
    repeat (apply Forall_cons;
            [first [apply u8_is_byte
                   | unfold is_byte, ModBus_ReadCoils, ModBus_ReadDiscreteInputs,
                       ModBus_ReadInputRegisters, ModBus_ReadHoldingRegisters,
                       ModBus_WriteCoil, ModBus_WriteRegister; lia]|]);
    apply Forall_nil.
Qed.

(** X6.  M101 with a whole device address D in [0,247], a whole register
    address P in [1,9999] and one of the six function codes E sends
    exactly one request.  Its six bytes are bytes; the first is D, the
    second is E, and the next two hold the zero-based register index
    P - 1, high byte first. *)
Theorem execute_M101_addresses
        (fuel : nat) (state : Z) (gc_block : parser_block_t) (w : world) (d p : Z) :
  user_mcode gc_block = UserMCode_Generic1 ->
  values_d (values gc_block) = F32.of_Z d -> 0 <= d <= 247 ->
  values_p (values gc_block) = F32.of_Z p -> 1 <= p <= 9999 ->
  In (values_e (values gc_block)) function_codes ->
  exists w' f,
    mbio_execute fuel state gc_block w = Some w' /\
    sent_frames (trace w') = sent_frames (trace w) ++ [f] /\
    adu_at f 0 = d /\
    F32.of_Z (adu_at f 1) = values_e (values gc_block) /\
    adu_at f 2 = (p - 1) / 256 /\ adu_at f 3 = (p - 1) mod 256 /\
    Forall is_byte (adu f) /\ List.length (adu f) = 6%nat.
Proof using Type.
  intros Hm Hd Bd Hp Bp He.
  rewrite (execute_M101_request _ _ _ _ Hm).
  assert (R : exists f, M101_request gc_block = Some f /\
                        F32.of_Z (adu_at f 1) = values_e (values gc_block) /\
                        adu_at f 2 = u8 (MODBUS_SET_MSB16
                                           (u16 (u16 (uint16_of_float (values_p (values gc_block)) - 1)))) /\
                        adu_at f 3 = u8 (MODBUS_SET_LSB16
                                           (u16 (u16 (uint16_of_float (values_p (values gc_block)) - 1))))).
  { unfold M101_request, function_codes in *. cbn [map In] in He.
    repeat (destruct He as [<-|He];
            [eexists; split; [reflexivity|]; repeat split|]).
    destruct He. }
  destruct R as (f & Rf & E1 & E2 & E3). rewrite Rf.
  destruct (M101_request_head _ _ Rf) as (A0 & _ & _ & By & Len & _).
  exists (mbio_modbus_send_command f true w), f.
  split; [reflexivity|]. split; [apply send_command_frames|].
  rewrite Hd, (char_of_whole d) in A0 by lia.
  rewrite Hp, (uint16_of_whole p) in E2, E3 by lia.
  assert (U : u16 (u16 (p - 1)) = p - 1)
    by (unfold u16; rewrite Z.mod_mod by lia; apply Z.mod_small; lia).
  rewrite U in E2, E3.
  split; [rewrite A0; unfold u8; apply Z.mod_small; lia|].
  split; [exact E1|].
  split.
  - rewrite E2. unfold u8, MODBUS_SET_MSB16. rewrite Z.shiftr_div_pow2 by lia.
    change (2 ^ 8) with 256. apply Z.mod_small.
    split; [apply Z.div_pos; lia | apply Z.div_lt_upper_bound; lia].
  - split; [|split; assumption].
    rewrite E3. unfold u8, MODBUS_SET_LSB16. change 0xFF with (Z.ones 8).
    rewrite Z.land_ones by lia. change (2 ^ 8) with 256. apply Z.mod_mod. lia.
Qed.

(** X7.  M101 with function read-discrete-inputs or read-input-registers
    asks for one input or register, whatever value Q the block holds:
    the count bytes are 0x00 0x01, and the expected response length is 6
    and 7. *)
Theorem execute_reads_count_one
        (fuel : nat) (state : Z) (gc_block : parser_block_t) (q : float) (w : world) :
  user_mcode gc_block = UserMCode_Generic1 ->
  values_e (values gc_block) = F32.of_Z ModBus_ReadDiscreteInputs \/
  values_e (values gc_block) = F32.of_Z ModBus_ReadInputRegisters ->
  exists w' f,
    mbio_execute fuel state (set_values_q gc_block q) w = Some w' /\
    sent_frames (trace w') = sent_frames (trace w) ++ [f] /\
    F32.of_Z (adu_at f 1) = values_e (values gc_block) /\
    adu_at f 4 = 0x00 /\ adu_at f 5 = 0x01 /\
    rx_length f = (if adu_at f 1 =? ModBus_ReadDiscreteInputs then 6 else 7).
Proof using Type.
  intros Hm He.
  rewrite (execute_M101_request _ _ (set_values_q gc_block q) _ Hm).
  unfold M101_request. cbn [values set_values_q values_d values_e values_p values_q].
  destruct He as [-> | ->]; eexists; eexists;
    (split; [reflexivity|]); (split; [apply send_command_frames|]);
    repeat split.
Qed.

Lemma read_u16_of_bytes_all :
  forallb (fun n => modbus_read_u16 [n / 256; n mod 256] =? n) (zrange (Z.to_nat 65536) 0)
    = true.
Proof using Type. vm_compute. reflexivity. Qed.

(** Two bytes written high byte first read back as the 16-bit value. *)
Lemma read_u16_of_bytes (n : Z) (rest : list Z) :
  0 <= n < 65536 -> modbus_read_u16 (n / 256 :: n mod 256 :: rest) = n.
Proof using Type.
  intros H. change (modbus_read_u16 (n / 256 :: n mod 256 :: rest))
    with (modbus_read_u16 [n / 256; n mod 256]).
  apply Z.eqb_eq.
  apply (proj1 (forallb_forall _ _) read_u16_of_bytes_all n).
  apply zrange_In. rewrite Z2Nat.id; lia.
Qed.

(** The value bytes of a request are the 16-bit value, high byte first. *)
Lemma value_bytes (q : Z) :
  0 <= q < 65536 ->
  u8 (MODBUS_SET_MSB16 (u16 q)) = q / 256 /\ u8 (MODBUS_SET_LSB16 (u16 q)) = q mod 256.
Proof using Type.
  intros Bq.
  assert (U : u16 q = q) by (unfold u16; apply Z.mod_small; lia).
  rewrite U. split.
  - unfold u8, MODBUS_SET_MSB16. rewrite Z.shiftr_div_pow2 by lia.
    change (2 ^ 8) with 256. apply Z.mod_small.
    split; [apply Z.div_pos; lia | apply Z.div_lt_upper_bound; lia].
  - unfold u8, MODBUS_SET_LSB16. change 0xFF with (Z.ones 8).
    rewrite Z.land_ones by lia. change (2 ^ 8) with 256. apply Z.mod_mod. lia.
Qed.

(** X8.  M101 with function write-register sends the value as it is: for
    a whole Q in [0,65535] the value bytes of the request are Q / 256 and
    Q mod 256, and the expected response length is 8.  Nothing is
    coerced, unlike for write-coil. *)
Theorem execute_write_register_raw
        (fuel : nat) (state : Z) (gc_block : parser_block_t) (w : world) (q : Z) :
  user_mcode gc_block = UserMCode_Generic1 ->
  values_e (values gc_block) = F32.of_Z ModBus_WriteRegister ->
  values_q (values gc_block) = F32.of_Z q -> 0 <= q <= 65535 ->
  exists w' f,
    mbio_execute fuel state gc_block w = Some w' /\
    sent_frames (trace w') = sent_frames (trace w) ++ [f] /\
    adu_at f 1 = ModBus_WriteRegister /\
    adu_at f 4 = q / 256 /\ adu_at f 5 = q mod 256 /\
    modbus_read_u16 (skipn 4 (adu f)) = q /\
    rx_length f = 8.
Proof using Type.
  intros Hm He Hq Bq.
  rewrite (execute_M101_request _ _ _ _ Hm).
  unfold M101_request. rewrite He, Hq, (uint16_of_whole q) by lia. cbv zeta.
  change (char_of_float (F32.of_Z ModBus_WriteRegister)) with 6. cbn [Z.eqb Pos.eqb].
  eexists. eexists. split; [reflexivity|]. split; [apply send_command_frames|].
  unfold WriteRegister_frame, adu_at. cbn [adu nth skipn rx_length].
  destruct (value_bytes q) as [A B]; [lia|].
  rewrite A, B. repeat split.
  apply read_u16_of_bytes. lia.
Qed.

(** M101 whose function code (as a [char]) is none of 1 to 6 sends
    nothing and leaves the world as it is: the inner [switch] has no
    default. *)
Theorem execute_unsupported_function
        (fuel : nat) (state : Z) (gc_block : parser_block_t) (w : world) :
  user_mcode gc_block = UserMCode_Generic1 ->
  ~ 1 <= char_of_float (values_e (values gc_block)) <= 6 ->
  mbio_execute fuel state gc_block w = Some w.
Proof using Type.
  intros Hm He. rewrite (execute_M101_request _ _ _ _ Hm).
  unfold M101_request. cbv zeta.
  repeat match goal with |- context [if ?c =? ?k then _ else _] =>
           let E := fresh "E" in destruct (c =? k) eqn:E;
           [apply Z.eqb_eq in E; unfold ModBus_ReadCoils, ModBus_ReadDiscreteInputs,
              ModBus_ReadInputRegisters, ModBus_ReadHoldingRegisters, ModBus_WriteCoil,
              ModBus_WriteRegister in E; lia|] end.
  reflexivity.
Qed.

(** ** Further properties of the response handler *)

Lemma adu_at_is_byte (msg : modbus_message_t) (i : nat) :
  Forall is_byte (adu msg) -> is_byte (adu_at msg i).
Proof using Type.
  unfold adu_at. intros H. destruct (nth_in_or_default i (adu msg) 0) as [I|E].
  - exact (proj1 (Forall_forall _ _) H _ I).
  - rewrite E. unfold is_byte. lia.
Qed.

Lemma nth_after_skipn {A : Type} (n i : nat) (l : list A) (d : A) :
  nth i (skipn n l) d = nth (n + i) l d.
Proof using Type.
  revert l. induction n as [|n IH]; intros l; [reflexivity|].
  destruct l as [|x l]; [destruct i; reflexivity | apply IH].
Qed.

(** The high bit of a byte is set exactly from 128 upwards. *)
Lemma high_bit_of_byte (b : Z) : is_byte b -> (Z.land b 0x80 =? 0) = (b <? 128).
Proof using Type.
  intros [H0 H1].
  assert (A : forallb (fun n => Bool.eqb (Z.land n 0x80 =? 0) (n <? 128))
                (zrange (Z.to_nat 256) 0) = true) by (vm_compute; reflexivity).
  apply Bool.eqb_prop.
  apply (proj1 (forallb_forall _ _) A b).
  apply zrange_In. rewrite Z2Nat.id; lia.
Qed.

Lemma read_u16_at (msg : modbus_message_t) (i : nat) :
  Forall is_byte (adu msg) ->
  modbus_read_u16 (skipn i (adu msg)) = adu_at msg i * 256 + adu_at msg (S i).
Proof using Type.
  intros H. pose proof (adu_at_is_byte msg i H) as [A0 A1].
  pose proof (adu_at_is_byte msg (S i) H) as [B0 B1].
  set (n := adu_at msg i * 256 + adu_at msg (S i)).
  assert (Hn : 0 <= n < 65536) by (unfold n; lia).
  rewrite <- (read_u16_of_bytes n [] Hn).
  unfold modbus_read_u16. rewrite !nth_after_skipn. cbn [nth].
  replace (i + 0)%nat with i by lia. replace (i + 1)%nat with (S i) by lia.
  fold (adu_at msg i). fold (adu_at msg (S i)).
  replace (n / 256) with (adu_at msg i)
    by (unfold n; apply Z.div_unique with (r := adu_at msg (S i)); lia).
  replace (n mod 256) with (adu_at msg (S i))
    by (unfold n; apply Z.mod_unique with (q := adu_at msg i); lia).
  reflexivity.
Qed.

(** X9.  A response of bytes with a clear error indicator and the
    plugin's tag adds nothing to the trace, and what it leaves in
    [var5399] depends on the function code alone: the lowest bit of the
    data byte for read-discrete-inputs (so 0 or 1), the data byte itself
    for read-coils, the 16-bit value of the two data bytes, high byte
    first, for the two register reads; any other function code leaves
    [var5399] as it was.  A decoded value lies in [0,65535]. *)
Theorem rx_packet_decodes (msg : modbus_message_t) (w : world) :
  error_bit msg = false ->
  context msg = MBIO_Command ->
  Forall is_byte (adu msg) ->
  let w' := mbio_rx_packet msg w in
  trace w' = trace w /\
  cold_start (sys w') = cold_start (sys w) /\ abort (sys w') = abort (sys w) /\
  (adu_at msg 1 = ModBus_ReadDiscreteInputs ->
   var5399 (sys w') = adu_at msg 3 mod 2 /\ (var5399 (sys w') = 0 \/ var5399 (sys w') = 1)) /\
  (adu_at msg 1 = ModBus_ReadCoils -> var5399 (sys w') = adu_at msg 3) /\
  (adu_at msg 1 = ModBus_ReadHoldingRegisters \/ adu_at msg 1 = ModBus_ReadInputRegisters ->
   var5399 (sys w') = adu_at msg 3 * 256 + adu_at msg 4) /\
  (1 <= adu_at msg 1 <= 4 -> 0 <= var5399 (sys w') <= 65535) /\
  (~ 1 <= adu_at msg 1 <= 4 -> var5399 (sys w') = var5399 (sys w)).
Proof using Type.
  intros He Hc Hb. cbv zeta. unfold mbio_rx_packet.
  unfold error_bit in He. apply negb_false_iff in He. rewrite He, Hc, Z.eqb_refl.
  pose proof (adu_at_is_byte msg 3 Hb) as [A0 A1].
  pose proof (adu_at_is_byte msg 4 Hb) as [B0 B1].
  pose proof (read_u16_at msg 3 Hb) as RU.
  assert (L : Z.land (adu_at msg 3) 0x01 = adu_at msg 3 mod 2)
    by (change 0x01 with (Z.ones 1); rewrite Z.land_ones by lia; reflexivity).
  pose proof (Z.mod_pos_bound (adu_at msg 3) 2 ltac:(lia)) as M.
  unfold ModBus_ReadDiscreteInputs, ModBus_ReadCoils, ModBus_ReadInputRegisters,
    ModBus_ReadHoldingRegisters in *.
  destruct (adu_at msg 1 =? 2) eqn:E2; [apply Z.eqb_eq in E2|apply Z.eqb_neq in E2].
  { unfold set_var5399; cbn [orb sys var5399 trace cold_start abort]. rewrite L. repeat split; intros; try lia. }
  destruct (adu_at msg 1 =? 1) eqn:E1; [apply Z.eqb_eq in E1|apply Z.eqb_neq in E1].
  { unfold set_var5399; cbn [orb sys var5399 trace cold_start abort]. repeat split; intros; try lia. }
  destruct (adu_at msg 1 =? 4) eqn:E4; [apply Z.eqb_eq in E4|apply Z.eqb_neq in E4].
  { unfold set_var5399; cbn [orb sys var5399 trace cold_start abort]. rewrite RU. repeat split; intros; try lia. }
  destruct (adu_at msg 1 =? 3) eqn:E3; [apply Z.eqb_eq in E3|apply Z.eqb_neq in E3].
  { unfold set_var5399; cbn [orb sys var5399 trace cold_start abort]. rewrite RU. repeat split; intros; try lia. }
  cbn [orb]. repeat split; intros; try lia.
Qed.

(** X10.  The error indicator is looked for in the first byte of the ADU.
    So a response of bytes whose first byte is 128 or more, as the
    address of a device in [128,247] is, is taken for an error whatever
    follows: [var5399] is not changed, and the warning is reported. *)
Theorem rx_packet_high_address (msg : modbus_message_t) (w : world) :
  Forall is_byte (adu msg) ->
  128 <= adu_at msg 0 ->
  sys (mbio_rx_packet msg w) = sys w /\
  trace (mbio_rx_packet msg w) =
    trace w ++ [Ev_report_message "MODBUS ERROR" Message_Warning].
Proof using Type.
  intros Hb H. unfold mbio_rx_packet.
  rewrite (high_bit_of_byte _ (adu_at_is_byte msg 0 Hb)).
  destruct (Z.ltb_spec (adu_at msg 0) 128); [lia|]. split; reflexivity.
Qed.

(** X11.  Reading a register gives back the value the device holds: when
    the transport answers the request of M101 with function
    read-holding-registers or read-input-registers by a response with
    the plugin's tag, a clear error indicator, the same function code
    and the 16-bit value [v] in its two data bytes, high byte first,
    then [var5399] is [v] once [mbio_execute] returns. *)
Theorem read_register_round_trip
        (fuel : nat) (state : Z) (gc_block : parser_block_t) (w : world)
        (msg : modbus_message_t) (v : Z) :
  user_mcode gc_block = UserMCode_Generic1 ->
  values_e (values gc_block) = F32.of_Z ModBus_ReadHoldingRegisters \/
  values_e (values gc_block) = F32.of_Z ModBus_ReadInputRegisters ->
  (forall req, modbus_transport (trace w) req = Rx_packet msg) ->
  context msg = MBIO_Command -> error_bit msg = false ->
  adu_at msg 1 = char_of_float (values_e (values gc_block)) ->
  0 <= v < 65536 ->
  adu_at msg 3 = v / 256 -> adu_at msg 4 = v mod 256 ->
  exists w',
    mbio_execute fuel state gc_block w = Some w' /\ var5399 (sys w') = v.
Proof using Type.
  intros Hm He Ht Hc Hb Hf Bv H3 H4.
  rewrite (execute_M101_request _ _ _ _ Hm).
  assert (R : modbus_read_u16 (skipn 3 (adu msg)) = v).
  { rewrite <- (read_u16_of_bytes v [] Bv). unfold modbus_read_u16.
    rewrite !nth_after_skipn. cbn [nth Nat.add].
    fold (adu_at msg 3). fold (adu_at msg 4). now rewrite H3, H4. }
  assert (D : forall w0, var5399 (sys (mbio_rx_packet msg w0)) = v).
  { intros w0. unfold mbio_rx_packet. unfold error_bit in Hb.
    apply negb_false_iff in Hb. rewrite Hb, Hc, Z.eqb_refl, Hf.
    destruct He as [He|He]; rewrite He;
      [change (char_of_float (F32.of_Z ModBus_ReadHoldingRegisters)) with 3
      |change (char_of_float (F32.of_Z ModBus_ReadInputRegisters)) with 4];
      exact R. }
  unfold M101_request. cbv zeta.
  destruct He as [He|He]; rewrite He;
    [change (char_of_float (F32.of_Z ModBus_ReadHoldingRegisters)) with 3
    |change (char_of_float (F32.of_Z ModBus_ReadInputRegisters)) with 4];
    unfold ModBus_ReadCoils, ModBus_ReadDiscreteInputs, ModBus_ReadInputRegisters,
      ModBus_ReadHoldingRegisters; cbn [Z.eqb Pos.eqb];
    (eexists; split; [reflexivity|]);
    unfold mbio_modbus_send_command; rewrite Ht; apply D.
Qed.

(** ** Further properties of the poll loop *)

(** X12.  When the device answers the first read with a discrete input
    whose lowest bit is the target, the poll returns the target at once,
    whatever the timeout and the abort flag are: one request, no call of
    the realtime handler, no sleep. *)
Theorem poll_matches_at_once
        (fuel : nat) (device_address register_address value : Z)
        (timeout : float) (w : world) (msg : modbus_message_t) :
  (1 <= fuel)%nat ->
  modbus_transport (trace w)
    (ReadDiscreteInputs_frame device_address register_address 1) = Rx_packet msg ->
  context msg = MBIO_Command -> error_bit msg = false ->
  adu_at msg 1 = ModBus_ReadDiscreteInputs ->
  Z.land (adu_at msg 3) 0x01 = value ->
  exists w',
    mbio_Wait_ReadDiscreteInputs fuel device_address register_address value timeout w
      = Some (value, w') /\
    trace w' =
      trace w ++ [Ev_modbus_send (ReadDiscreteInputs_frame device_address register_address 1) true] /\
    var5399 (sys w') = value.
Proof using Type.
  intros Hfuel Ht Hc Hb Hf Hv. destruct fuel as [|fuel]; [lia|].
  unfold mbio_Wait_ReadDiscreteInputs. cbn [wait_loop].
  unfold mbio_ModBus_ReadDiscreteInputs, mbio_modbus_send_command. rewrite Ht.
  unfold mbio_rx_packet. unfold error_bit in Hb. apply negb_false_iff in Hb.
  rewrite Hb, Hc, Z.eqb_refl, Hf, Hv.
  cbn [Z.eqb Pos.eqb ModBus_ReadDiscreteInputs set_var5399 log sys var5399 trace].
  rewrite Z.eqb_refl. eexists. repeat split.
Qed.

(** When the request of the poll is not answered by a packet, the read
    leaves [var5399] as it was. *)
Lemma unanswered_read_keeps_result (cmd : modbus_message_t) (block : bool) (w : world) :
  (forall msg, modbus_transport (trace w) cmd <> Rx_packet msg) ->
  var5399 (sys (mbio_modbus_send_command cmd block w)) = var5399 (sys w).
Proof using Type.
  intros H. unfold mbio_modbus_send_command.
  destruct (modbus_transport (trace w) cmd) as [msg|code ctx|] eqn:E.
  - now destruct (H msg).
  - unfold mbio_rx_exception. now rewrite (proj1 (mbio_failed_trace _)).
  - reflexivity.
Qed.

(** X13.  [var5399] is not reset before a poll.  When it already holds
    the target and the first read is not answered by a packet (the
    transport reports an exception, or nothing), the poll returns the
    target as if the device had shown it, after that one request and
    without sleeping. *)
Theorem poll_takes_stale_result
        (fuel : nat) (device_address register_address value : Z)
        (timeout : float) (w : world) :
  (1 <= fuel)%nat ->
  var5399 (sys w) = value ->
  (forall msg, modbus_transport (trace w)
                 (ReadDiscreteInputs_frame device_address register_address 1)
               <> Rx_packet msg) ->
  exists w',
    mbio_Wait_ReadDiscreteInputs fuel device_address register_address value timeout w
      = Some (value, w') /\
    sent_frames (trace w') =
      sent_frames (trace w) ++ [ReadDiscreteInputs_frame device_address register_address 1] /\
    sleeps (trace w') = sleeps (trace w).
Proof using Type.
  intros Hfuel Hv Ht. destruct fuel as [|fuel]; [lia|].
  unfold mbio_Wait_ReadDiscreteInputs. cbn [wait_loop].
  unfold mbio_ModBus_ReadDiscreteInputs.
  rewrite (unanswered_read_keeps_result _ true w Ht), Hv, Z.eqb_refl.
  eexists. split; [reflexivity|]. apply send_command_frames.
Qed.

(** The loop when no read ever leaves the target in [var5399] and no
    abort is requested: it runs [delay] times. *)
Lemma wait_loop_exhausts (device_address register_address value : Z) (fuel : nat) :
  (forall tr, realtime_abort tr = false) ->
  (forall w, var5399 (sys (mbio_ModBus_ReadDiscreteInputs device_address register_address 1 w))
             <> value) ->
  forall (delay : Z) (w : world),
    0 <= uint_fast16_bits ->
    1 <= delay < 2 ^ uint_fast16_bits ->
    abort (sys w) = false ->
    (Z.to_nat delay <= fuel)%nat ->
    exists w',
      wait_loop fuel device_address register_address value delay w = Some (-1, 0, w') /\
      sent_frames (trace w') =
        sent_frames (trace w) ++
        repeat (ReadDiscreteInputs_frame device_address register_address 1) (Z.to_nat delay) /\
      sleeps (trace w') = sleeps (trace w) ++ repeat 50 (Z.to_nat delay).
Proof using Type.
  intros Hrt Hnm.
  induction fuel as [|fuel IH]; intros delay w HW Hd Ha Hf; [lia|].
  cbn [wait_loop].
  set (w1 := mbio_ModBus_ReadDiscreteInputs device_address register_address 1 w).
  destruct (send_command_frames
              (ReadDiscreteInputs_frame device_address register_address 1) true w)
    as [F1 S1].
  fold (mbio_ModBus_ReadDiscreteInputs device_address register_address 1 w) in F1, S1.
  fold w1 in F1, S1.
  assert (A1 : abort (sys w1) = false)
    by (unfold w1, mbio_ModBus_ReadDiscreteInputs; now rewrite send_command_abort).
  pose proof (Hnm w) as M. fold w1 in M. apply Z.eqb_neq in M. rewrite M.
  assert (D0 : (delay =? 0) = false) by (apply Z.eqb_neq; lia).
  rewrite D0. cbn [negb].
  destruct (pause_effect w1) as (P1 & P2 & P3 & P4).
  set (w2 := hal_delay_ms 50 (protocol_execute_realtime w1)) in *.
  rewrite (Z.mod_small (delay - 1)) by lia.
  rewrite P2, A1, Hrt. cbn [orb negb]. rewrite andb_true_r.
  replace (Z.to_nat delay) with (S (Z.to_nat (delay - 1))) by lia.
  destruct (delay - 1 =? 0) eqn:D1; cbn [negb].
  - apply Z.eqb_eq in D1. rewrite D1. exists w2. cbn [repeat Z.to_nat].
    split; [reflexivity|]. rewrite P3, P4, F1, S1. split; reflexivity.
  - apply Z.eqb_neq in D1.
    destruct (IH (delay - 1) w2 HW) as (w' & L & Fr & Sl); try lia.
    { now rewrite P2, A1, Hrt. }
    exists w'. split; [exact L|].
    rewrite Fr, Sl, P3, P4, F1, S1, <- !app_assoc. split; reflexivity.
Qed.

(** X14.  When no read ever leaves the target in [var5399] and no abort
    is requested, the poll uses up its step count [n]: it returns -1
    after exactly [n] requests and [n] sleeps of 50 ms. *)
Theorem poll_exhausts_steps
        (fuel : nat) (device_address register_address value : Z)
        (timeout : float) (n : Z) (w : world) :
  0 <= uint_fast16_bits ->
  wait_steps timeout = n -> 1 <= n ->
  (forall tr, realtime_abort tr = false) ->
  abort (sys w) = false ->
  (forall w0, var5399 (sys (mbio_ModBus_ReadDiscreteInputs device_address register_address 1 w0))
              <> value) ->
  (Z.to_nat n <= fuel)%nat ->
  exists w',
    mbio_Wait_ReadDiscreteInputs fuel device_address register_address value timeout w
      = Some (-1, w') /\
    sent_frames (trace w') =
      sent_frames (trace w) ++
      repeat (ReadDiscreteInputs_frame device_address register_address 1) (Z.to_nat n) /\
    sleeps (trace w') = sleeps (trace w) ++ repeat 50 (Z.to_nat n).
Proof using Type.
  intros HW Hn H1 Hrt Ha Hnm Hf.
  assert (B : n < 2 ^ uint_fast16_bits).
  { rewrite <- Hn. unfold wait_steps. apply Z.mod_pos_bound.
    apply Z.pow_pos_nonneg; lia. }
  unfold mbio_Wait_ReadDiscreteInputs. rewrite Hn.
  destruct (wait_loop_exhausts device_address register_address value fuel Hrt Hnm n w)
    as (w' & L & Fr & Sl); try lia; try assumption.
  exists w'. rewrite L. repeat split; assumption.
Qed.

(** X15.  M102 raises the timeout alarm exactly when the poll ended
    without the target in [var5399], be it by the step count or by an
    abort: for a target that is not negative, and with the model
    following enough iterations, [mbio_execute] adds the alarm
    Status_GCodeTimeout as the last event in that case and adds nothing
    to what the poll did otherwise. *)
Theorem execute_M102_alarm
        (fuel : nat) (state : Z) (gc_block : parser_block_t) (w : world) :
  user_mcode gc_block = UserMCode_Generic2 ->
  0 <= uint_fast16_bits ->
  0 <= int32_of_float (values_q (values gc_block)) ->
  (1 <= fuel)%nat ->
  (Z.to_nat (wait_steps (values_r (values gc_block))) <= fuel)%nat ->
  exists ret wl w',
    mbio_Wait_ReadDiscreteInputs fuel
      (char_of_float (values_d (values gc_block)))
      (u16 (uint16_of_float (values_p (values gc_block)) - 1))
      (int32_of_float (values_q (values gc_block)))
      (values_r (values gc_block)) w = Some (ret, wl) /\
    mbio_execute fuel state gc_block w = Some w' /\
    sys w' = sys wl /\
    (var5399 (sys wl) = int32_of_float (values_q (values gc_block)) -> trace w' = trace wl) /\
    (var5399 (sys wl) <> int32_of_float (values_q (values gc_block)) ->
     trace w' = trace wl ++ [Ev_system_raise_alarm Status_GCodeTimeout]).
Proof using Type.
  intros Hm HW Hq H1 Hf.
  unfold mbio_execute. rewrite Hm. unfold mbio_Wait_ReadDiscreteInputs.
  assert (B : 0 <= wait_steps (values_r (values gc_block)) < 2 ^ uint_fast16_bits).
  { unfold wait_steps. apply Z.mod_pos_bound. apply Z.pow_pos_nonneg; lia. }
  destruct (wait_loop_returns
              (char_of_float (values_d (values gc_block)))
              (u16 (uint16_of_float (values_p (values gc_block)) - 1))
              (int32_of_float (values_q (values gc_block)))
              fuel (wait_steps (values_r (values gc_block))) w HW B H1 Hf)
    as (ret & delay' & wl & k & L & _ & _ & _ & R).
  rewrite L.
  destruct R as [[-> V] | [-> V]].
  - exists (int32_of_float (values_q (values gc_block))), wl, wl.
    split; [reflexivity|].
    destruct (Z.ltb_spec (int32_of_float (values_q (values gc_block))) 0); [lia|].
    split; [reflexivity|]. split; [reflexivity|]. split; [reflexivity|].
    intros N. contradiction.
  - exists (-1), wl, (system_raise_alarm Status_GCodeTimeout wl).
    split; [reflexivity|]. split; [reflexivity|]. split; [reflexivity|].
    split; [intros N; contradiction | reflexivity].
Qed.

End Plugin.

(** ** The handler chain *)

(** X16.  M101 and M102 are the plugin's own: what [mbio_check],
    [mbio_validate] and [mbio_execute] do with them does not depend on
    the chained handlers.  Any other code is not looked at: with no
    chained handler it is ignored by the check, unhandled for the
    validator with the block intact, and the executor leaves the world
    as it is. *)
Theorem own_codes_bypass_chain
        (isintf : float -> bool) (MBIO_Command MBIO_WAIT_STEP uint_fast16_bits : Z)
        (chain1 chain2 : user_mcode_ptrs_t)
        (modbus_transport : list event -> modbus_message_t -> modbus_completion)
        (realtime_abort : list event -> bool)
        (fuel : nat) (state : Z) (gc_block : parser_block_t) (w : world) :
  (user_mcode gc_block = UserMCode_Generic1 \/ user_mcode gc_block = UserMCode_Generic2 ->
   mbio_check chain1 (user_mcode gc_block) = user_mcode gc_block /\
   mbio_validate isintf chain1 gc_block = mbio_validate isintf chain2 gc_block /\
   mbio_execute MBIO_Command MBIO_WAIT_STEP uint_fast16_bits chain1 modbus_transport
     realtime_abort fuel state gc_block w =
   mbio_execute MBIO_Command MBIO_WAIT_STEP uint_fast16_bits chain2 modbus_transport
     realtime_abort fuel state gc_block w) /\
  (user_mcode gc_block <> UserMCode_Generic1 /\ user_mcode gc_block <> UserMCode_Generic2 ->
   mbio_check no_chain (user_mcode gc_block) = UserMCode_Ignore /\
   mbio_validate isintf no_chain gc_block = (Status_Unhandled, gc_block) /\
   mbio_execute MBIO_Command MBIO_WAIT_STEP uint_fast16_bits no_chain modbus_transport
     realtime_abort fuel state gc_block w = Some w).
Proof.
  split.
  - intros [Hm|Hm].
    + split; [rewrite Hm; reflexivity|]. split.
      * rewrite !(validate_M101_stages _ _ _ Hm). reflexivity.
      * rewrite !(execute_M101_request _ _ _ _ _ _ _ _ _ _ Hm). reflexivity.
    + split; [rewrite Hm; reflexivity|]. split.
      * rewrite !(validate_M102_stages _ _ _ Hm). reflexivity.
      * unfold mbio_execute. rewrite Hm. reflexivity.
  - intros [H1 H2]. unfold mbio_check, mbio_validate, mbio_execute.
    destruct (user_mcode gc_block); try contradiction; repeat split.
Qed.

(** ** The model at concrete inputs *)

(** C1: an exception response, outside and during cold start, makes
    [mbio_rx_packet] raise no alarm, neither at once nor queued. *)
Lemma rx_error_response_raises_no_alarm :
  error_bit error_response = true /\
  existsb is_alarm_event (trace (mbio_rx_packet 0 error_response world0)) = false /\
  existsb is_alarm_event (trace (mbio_rx_packet 0 error_response world_cold)) = false.
Proof. repeat split; reflexivity. Qed.

Lemma rx_error_response_witness :
  error_bit error_response = true /\
  sys (mbio_rx_packet 0 error_response world0) = sys world0 /\
  trace (mbio_rx_exception 2 0 world_cold) =
    [Ev_enqueue_foreground_task Task_mbio_raise_alarm].
Proof.
  split; [reflexivity|].
  destruct (rx_error_response 0 error_response world0 eq_refl) as (S & _ & X).
  split; [exact S|]. exact (proj2 (X 2 0 world_cold)).
Defined.

(** C2: M101 D1 E2 P1 Q70000 is out of range although the function is
    read-discrete-inputs and the register address lies within [1,9999]. *)
Lemma validate_M101_checks_value_of_reads :
  F32.within 0 247 (values_d (values M101_read_input_Q70000)) /\
  values_e (values M101_read_input_Q70000) = F32.of_Z ModBus_ReadDiscreteInputs /\
  F32.within 1 9999 (values_p (values M101_read_input_Q70000)) /\
  fst (mbio_validate isintf_whole no_chain M101_read_input_Q70000)
    = Status_GcodeValueOutOfRange.
Proof. repeat split; reflexivity. Qed.

Lemma validate_M101_iff_witness :
  fst (mbio_validate isintf_whole no_chain M101_read_input_Q7) = Status_OK.
Proof.
  apply (validate_M101_iff isintf_whole no_chain M101_read_input_Q7);
    try reflexivity.
  - split; reflexivity.
  - simpl. right. left. reflexivity.
  - split; [split; reflexivity|]. right. split; reflexivity.
Defined.

(** C3: M102 D1 P1 Q1 R3601 is out of range although the timeout is a
    non-negative number. *)
Lemma validate_M102_rejects_long_timeout :
  SFleb (F32.of_Z 0) (values_r (values M102_R3601)) = true /\
  fst (mbio_validate isintf_whole no_chain M102_R3601) = Status_GcodeValueOutOfRange.
Proof. split; reflexivity. Qed.

Lemma validate_M102_timeout_witness :
  fst (mbio_validate isintf_whole no_chain M102_half_second) = Status_OK.
Proof.
  apply (validate_M102_timeout isintf_whole no_chain M102_half_second);
    try reflexivity; split; reflexivity.
Defined.

(** C4: M101 D1 E1 P10 Q5 is valid and sends a read-coils request for
    register index 9 with the count bytes 0x00 0x05. *)
Lemma read_coils_requests_five :
  mbio_validate isintf_whole no_chain M101_read_coils_Q5
    = (Status_OK, claimed_M101 M101_read_coils_Q5) /\
  option_map (fun w => sent_frames (trace w))
    (mbio_execute 7 50 32 no_chain device_silent never_abort 0 0
       (claimed_M101 M101_read_coils_Q5) world0)
    = Some [ {| context := 7; crc_check := true;
                adu := [1; 1; 0; 9; 0; 5]; tx_length := 8; rx_length := 6 |} ].
Proof. split; reflexivity. Qed.

Lemma read_coils_count_is_value_witness :
  exists w' f,
    mbio_execute 7 50 32 no_chain device_silent never_abort 0 0
      (claimed_M101 M101_read_coils_Q5) world0 = Some w' /\
    sent_frames (trace w') = sent_frames (trace world0) ++ [f] /\
    f = ReadCoils_frame 7 1 9 5 /\
    adu_at f 1 = ModBus_ReadCoils /\
    adu_at f 4 * 256 + adu_at f 5 = 5 /\
    (forall n, 0 <= n < 65536 ->
               values_q (values M101_read_coils_Q5) = F32.of_Z n ->
               adu_at f 4 * 256 + adu_at f 5 = n).
Proof.
  apply (read_coils_count_is_value isintf_whole 7 50 32 no_chain device_silent
           never_abort 0 0 M101_read_coils_Q5 (claimed_M101 M101_read_coils_Q5) world0);
    reflexivity.
Defined.



Example poll_tenth_of_a_second :
  option_map (fun r => (fst r, List.length (sent_frames (trace (snd r))), sleeps (trace (snd r))))
    (mbio_Wait_ReadDiscreteInputs 7 50 32 (device_input 0) never_abort 3 1 2 1 f_tenth world0)
    = Some (-1, 3%nat, [50; 50; 50]).
Proof. reflexivity. Qed.

(** C6: with the abort flag set beforehand and a device whose input is 1,
    polling for 1 sends a request and returns 1, not -1. *)
Lemma abort_set_but_target_read :
  abort (sys world_aborting) = true /\
  option_map (fun r => (fst r, List.length (sent_frames (trace (snd r)))))
    (mbio_Wait_ReadDiscreteInputs 7 50 32 (device_input 1) never_abort 3 1 2 1 f_tenth
       world_aborting)
    = Some (1, 1%nat).
Proof. split; reflexivity. Qed.

Lemma abort_set_before_loop_witness :
  abort (sys world_aborting) = true /\
  exists ret w',
    mbio_Wait_ReadDiscreteInputs 7 50 32 (device_input 0) never_abort 3 1 2 1 f_tenth
      world_aborting = Some (ret, w') /\
    sent_frames (trace w') =
      sent_frames (trace world_aborting) ++ [ReadDiscreteInputs_frame 7 1 2 1] /\
    trace w' =
      trace (mbio_ModBus_ReadDiscreteInputs 7 (device_input 0) 1 2 1 world_aborting) ++
      (if (var5399 (sys w') =? 1) || (wait_steps 50 32 f_tenth =? 0)
       then []
       else [Ev_execute_realtime; Ev_delay_ms 50]).
Proof.
  split; [reflexivity|].
  destruct (abort_set_before_loop 7 50 32 (device_input 0) never_abort 3 1 2 1 f_tenth
              world_aborting) as (ret & w' & R & F & _ & _ & _ & T & _).
  - lia.
  - reflexivity.
  - exists ret, w'. split; [exact R|]. split; [exact F|exact T].
Defined.

Example abort_set_no_match_trace :
  option_map (fun r => (fst r, trace (snd r)))
    (mbio_Wait_ReadDiscreteInputs 7 50 32 (device_input 0) never_abort 3 1 2 1 f_tenth
       world_aborting)
    = Some (-1, [Ev_modbus_send (ReadDiscreteInputs_frame 7 1 2 1) true;
                 Ev_execute_realtime; Ev_delay_ms 50]).
Proof. reflexivity. Qed.

(** C7: M102 D1 P1 Q1 R0.5 has a required word, R, that is not whole, and
    it is valid. *)
Lemma validate_M102_accepts_fraction :
  words_r (words M102_half_second) = true /\
  isintf_whole (values_r (values M102_half_second)) = false /\
  fst (mbio_validate isintf_whole no_chain M102_half_second) = Status_OK.
Proof. repeat split; reflexivity. Qed.

Lemma format_errors_precede_range_checks_witness :
  words_p (words M101_no_P) = false /\
  mbio_validate isintf_whole no_chain M101_no_P = (Status_BadNumberFormat, M101_no_P).
Proof.
  split; [reflexivity|].
  apply (proj1 (format_errors_precede_range_checks isintf_whole no_chain M101_no_P) eq_refl).
  right. right. left. left. reflexivity.
Defined.

Lemma write_coil_coercion_witness :
  values_q (values (claimed_M101 M101_write_coil_Q7)) = values_q (values M101_write_coil_Q7) /\
  exists w' f,
    mbio_execute 7 50 32 no_chain device_silent never_abort 0 0
      (claimed_M101 M101_write_coil_Q7) world0 = Some w' /\
    sent_frames (trace w') = sent_frames (trace world0) ++ [f] /\
    adu_at f 1 = ModBus_WriteCoil /\
    (uint16_of_float (values_q (values M101_write_coil_Q7)) = 0 ->
     adu_at f 4 = 0x00 /\ adu_at f 5 = 0x00) /\
    (uint16_of_float (values_q (values M101_write_coil_Q7)) <> 0 ->
     adu_at f 4 = 0xFF /\ adu_at f 5 = 0x00) /\
    (forall n, 0 <= n < 65536 ->
               values_q (values M101_write_coil_Q7) = F32.of_Z n ->
               uint16_of_float (values_q (values M101_write_coil_Q7)) = n).
Proof.
  apply (write_coil_coercion isintf_whole 7 50 32 no_chain device_silent never_abort 0 0
           M101_write_coil_Q7 (claimed_M101 M101_write_coil_Q7) world0);
    reflexivity.
Defined.

Example write_coil_Q7_frame :
  option_map (fun w => sent_frames (trace w))
    (mbio_execute 7 50 32 no_chain device_silent never_abort 0 0
       (claimed_M101 M101_write_coil_Q7) world0)
    = Some [ {| context := 7; crc_check := true;
                adu := [1; 5; 0; 9; 0xFF; 0x00]; tx_length := 8; rx_length := 8 |} ].
Proof. reflexivity. Qed.

Lemma read_holding_registers_fixed_count_witness :
  exists w',
    mbio_execute 7 50 32 no_chain device_silent never_abort 0 0
      (set_values_q M101_read_holding (F32.of_Z 1234)) world0 = Some w' /\
    sent_frames (trace w') =
      sent_frames (trace world0) ++ [ReadHoldingRegisters_frame 7 1 9].
Proof.
  apply (proj2 (read_holding_registers_fixed_count 7 50 32 no_chain device_silent never_abort)
           0%nat 0 M101_read_holding (F32.of_Z 1234) world0);
    reflexivity.
Defined.

Lemma frames_tagged_and_result_guarded_witness :
  context (WriteCoil_frame 7 1 9 0xff00) = 7 /\
  crc_check (WriteCoil_frame 7 1 9 0xff00) = true /\
  tx_length (WriteCoil_frame 7 1 9 0xff00) = 8.
Proof.
  apply (proj1 (frames_tagged_and_result_guarded 7) 1 9 0xff00).
  simpl. right. left. reflexivity.
Defined.

(** ** The further properties at concrete inputs *)

(** M101 D1 E6 P10 Q4660 is valid. *)
Lemma validate_M101_accepts_iff_witness :
  fst (mbio_validate isintf_whole no_chain M101_write_register) = Status_OK.
Proof.
  apply (validate_M101_accepts_iff isintf_whole no_chain M101_write_register eq_refl).
  split; [repeat split|].
  split; [right; split; reflexivity|].
  split; [unfold function_codes; simpl; auto 10|].
  split; right; split; reflexivity.
Defined.

(** M102 D1 P3 Q1 R0.1 is valid. *)
Lemma validate_M102_accepts_iff_witness :
  fst (mbio_validate isintf_whole no_chain M102_tenth) = Status_OK.
Proof.
  apply (validate_M102_accepts_iff isintf_whole no_chain M102_tenth eq_refl).
  split; [repeat split|].
  repeat split; right; split; reflexivity.
Defined.

(** M101 D1 E2 P1 Q70000 is out of range, and its words are claimed. *)
Lemma validate_claims_words_witness :
  fst (mbio_validate isintf_whole no_chain M101_read_input_Q70000)
    = Status_GcodeValueOutOfRange /\
  words (snd (mbio_validate isintf_whole no_chain M101_read_input_Q70000))
    = claim_M101 (words M101_read_input_Q70000).
Proof.
  split; [reflexivity|].
  apply (proj1 (validate_claims_words isintf_whole no_chain M101_read_input_Q70000
                  (or_intror eq_refl)) eq_refl).
Defined.

(** M101 D1 E2 P1 Q7: the value becomes 1. *)
Lemma validate_forces_count_witness :
  values_q (values (snd (mbio_validate isintf_whole no_chain M101_read_input_Q7)))
    = F32.of_Z 1.
Proof.
  apply (validate_forces_count isintf_whole no_chain M101_read_input_Q7 eq_refl eq_refl).
Defined.

Lemma validate_twice_witness :
  fst (mbio_validate isintf_whole no_chain
         (snd (mbio_validate isintf_whole no_chain M101_write_register)))
    = Status_BadNumberFormat.
Proof.
  apply (validate_twice isintf_whole no_chain M101_write_register
           (or_introl eq_refl) (or_introl eq_refl)).
Defined.

(** M101 D1 E6 P10 Q4660: device 1, function 6, register index 9. *)
Lemma execute_M101_addresses_witness :
  exists w' f,
    mbio_execute 7 50 32 no_chain device_silent never_abort 0 0 M101_write_register world0
      = Some w' /\
    sent_frames (trace w') = sent_frames (trace world0) ++ [f] /\
    adu_at f 0 = 1 /\
    F32.of_Z (adu_at f 1) = values_e (values M101_write_register) /\
    adu_at f 2 = (10 - 1) / 256 /\ adu_at f 3 = (10 - 1) mod 256 /\
    Forall is_byte (adu f) /\ List.length (adu f) = 6%nat.
Proof.
  apply (execute_M101_addresses 7 50 32 no_chain device_silent never_abort 0 0
           M101_write_register world0 1 10); try reflexivity; try lia.
  unfold function_codes. simpl. auto 10.
Defined.

(** M101 D1 E4 P10, with a Q of 7 put in: one register is asked for. *)
Lemma execute_reads_count_one_witness :
  exists w' f,
    mbio_execute 7 50 32 no_chain device_silent never_abort 0 0
      (set_values_q M101_read_input_register_Q7 (F32.of_Z 7)) world0 = Some w' /\
    sent_frames (trace w') = sent_frames (trace world0) ++ [f] /\
    F32.of_Z (adu_at f 1) = values_e (values M101_read_input_register_Q7) /\
    adu_at f 4 = 0x00 /\ adu_at f 5 = 0x01 /\
    rx_length f = (if adu_at f 1 =? ModBus_ReadDiscreteInputs then 6 else 7).
Proof.
  apply (execute_reads_count_one 7 50 32 no_chain device_silent never_abort 0 0
           M101_read_input_register_Q7 (F32.of_Z 7) world0 eq_refl).
  right. reflexivity.
Defined.

(** M101 D1 E6 P10 Q4660: the value bytes are 0x12 0x34. *)
Lemma execute_write_register_raw_witness :
  exists w' f,
    mbio_execute 7 50 32 no_chain device_silent never_abort 0 0 M101_write_register world0
      = Some w' /\
    sent_frames (trace w') = sent_frames (trace world0) ++ [f] /\
    adu_at f 1 = ModBus_WriteRegister /\
    adu_at f 4 = 4660 / 256 /\ adu_at f 5 = 4660 mod 256 /\
    modbus_read_u16 (skipn 4 (adu f)) = 4660 /\
    rx_length f = 8.
Proof.
  apply (execute_write_register_raw 7 50 32 no_chain device_silent never_abort 0 0
           M101_write_register world0 4660); try reflexivity; lia.
Defined.

(** M101 D1 E9 P10 Q7 sends nothing. *)
Lemma execute_unsupported_function_witness :
  mbio_execute 7 50 32 no_chain device_silent never_abort 0 0 M101_function_9 world0
    = Some world0.
Proof.
  apply (execute_unsupported_function 7 50 32 no_chain device_silent never_abort 0 0
           M101_function_9 world0 eq_refl).
  change (char_of_float (values_e (values M101_function_9))) with 9. lia.
Defined.

(** The holding register response leaves 0x1234 in [var5399]. *)
Lemma rx_packet_decodes_witness :
  var5399 (sys (mbio_rx_packet 7 register_response world0)) = 0x12 * 256 + 0x34.
Proof.
  assert (B : Forall is_byte (adu register_response))
    by (repeat constructor; unfold is_byte; simpl; lia).
  destruct (rx_packet_decodes 7 register_response world0 eq_refl eq_refl B)
    as (_ & _ & _ & _ & _ & R & _).
  apply R. left. reflexivity.
Defined.

(** A well-formed response of device 200 is taken for an error. *)
Lemma rx_packet_high_address_witness :
  sys (mbio_rx_packet 7 device_200_response (world_with 5)) = sys (world_with 5) /\
  trace (mbio_rx_packet 7 device_200_response (world_with 5)) =
    trace (world_with 5) ++ [Ev_report_message "MODBUS ERROR" Message_Warning].
Proof.
  apply (rx_packet_high_address 7 device_200_response (world_with 5)).
  - repeat constructor; unfold is_byte; simpl; lia.
  - unfold adu_at. simpl. lia.
Defined.

(** M101 D1 E3 P10 answered with 0x1234. *)
Lemma read_register_round_trip_witness :
  exists w',
    mbio_execute 7 50 32 no_chain (answering register_response) never_abort 0 0
      M101_read_holding world0 = Some w' /\
    var5399 (sys w') = 4660.
Proof.
  apply (read_register_round_trip 7 50 32 no_chain (answering register_response)
           never_abort 0 0 M101_read_holding world0 register_response 4660);
    try reflexivity; try lia.
  left. reflexivity.
Defined.

(** Polling input 3 of device 1 for 1, with a timeout of an hour and the
    abort flag set: the first answer ends it. *)
Lemma poll_matches_at_once_witness :
  exists w',
    mbio_Wait_ReadDiscreteInputs 7 50 32 (answering input_on_response) never_abort
      1 1 2 1 (F32.of_Z 3600) world_aborting = Some (1, w') /\
    trace w' =
      trace world_aborting ++ [Ev_modbus_send (ReadDiscreteInputs_frame 7 1 2 1) true] /\
    var5399 (sys w') = 1.
Proof.
  apply (poll_matches_at_once 7 50 32 (answering input_on_response) never_abort
           1 1 2 1 (F32.of_Z 3600) world_aborting input_on_response);
    try reflexivity; lia.
Defined.

(** [var5399] holds 1 from before and the device only fails: polling for
    1 returns 1. *)
Lemma poll_takes_stale_result_witness :
  exists w',
    mbio_Wait_ReadDiscreteInputs 7 50 32 device_failing never_abort
      1 1 2 1 f_tenth (world_with 1) = Some (1, w') /\
    sent_frames (trace w') =
      sent_frames (trace (world_with 1)) ++ [ReadDiscreteInputs_frame 7 1 2 1] /\
    sleeps (trace w') = sleeps (trace (world_with 1)).
Proof.
  apply (poll_takes_stale_result 7 50 32 device_failing never_abort
           1 1 2 1 f_tenth (world_with 1)).
  - lia.
  - reflexivity.
  - intros msg. unfold device_failing. discriminate.
Defined.

(** A timeout of 0.1 s and an input that stays 0: three requests and
    three sleeps. *)
Lemma poll_exhausts_steps_witness :
  exists w',
    mbio_Wait_ReadDiscreteInputs 7 50 32 (device_input 0) never_abort
      3 1 2 1 f_tenth world0 = Some (-1, w') /\
    sent_frames (trace w') =
      sent_frames (trace world0) ++ repeat (ReadDiscreteInputs_frame 7 1 2 1) (Z.to_nat 3) /\
    sleeps (trace w') = sleeps (trace world0) ++ repeat 50 (Z.to_nat 3).
Proof.
  apply (poll_exhausts_steps 7 50 32 (device_input 0) never_abort
           3 1 2 1 f_tenth 3 world0).
  - lia.
  - reflexivity.
  - lia.
  - reflexivity.
  - reflexivity.
  - intros w0. simpl. discriminate.
  - simpl. lia.
Defined.

(** M102 D1 P3 Q1 R0.1 on an input that stays 0 ends with the alarm. *)
Lemma execute_M102_alarm_witness :
  exists ret wl w',
    mbio_Wait_ReadDiscreteInputs 7 50 32 (device_input 0) never_abort 3
      (char_of_float (values_d (values M102_tenth)))
      (u16 (uint16_of_float (values_p (values M102_tenth)) - 1))
      (int32_of_float (values_q (values M102_tenth)))
      (values_r (values M102_tenth)) world0 = Some (ret, wl) /\
    mbio_execute 7 50 32 no_chain (device_input 0) never_abort 3 0 M102_tenth world0
      = Some w' /\
    sys w' = sys wl /\
    (var5399 (sys wl) = int32_of_float (values_q (values M102_tenth)) ->
     trace w' = trace wl) /\
    (var5399 (sys wl) <> int32_of_float (values_q (values M102_tenth)) ->
     trace w' = trace wl ++ [Ev_system_raise_alarm Status_GCodeTimeout]).
Proof.
  apply (execute_M102_alarm 7 50 32 no_chain (device_input 0) never_abort 3 0
           M102_tenth world0 eq_refl).
  - lia.
  - vm_compute. discriminate.
  - lia.
  - vm_compute. lia.
Defined.

Example M102_times_out :
  option_map (fun w => last (trace w) Ev_execute_realtime)
    (mbio_execute 7 50 32 no_chain (device_input 0) never_abort 3 0 M102_tenth world0)
    = Some (Ev_system_raise_alarm Status_GCodeTimeout).
Proof. reflexivity. Qed.

(** M101 is validated alike with and without another plugin's handlers;
    another code is unhandled when there are none. *)
Lemma own_codes_bypass_chain_witness :
  mbio_validate isintf_whole permissive_chain M101_read_input_Q70000
    = mbio_validate isintf_whole no_chain M101_read_input_Q70000 /\
  mbio_validate isintf_whole no_chain other_block = (Status_Unhandled, other_block).
Proof.
  split.
  - apply (proj1 (own_codes_bypass_chain isintf_whole 7 50 32 permissive_chain no_chain
                    device_silent never_abort 0 0 M101_read_input_Q70000 world0)
             (or_introl eq_refl)).
  - apply (proj2 (own_codes_bypass_chain isintf_whole 7 50 32 permissive_chain no_chain
                    device_silent never_abort 0 0 other_block world0)).
    split; discriminate.
Defined.
